(** * The chromem-go vector store adapter of langchaingo

    A shallow embedding of [vectorstores/chromem] (the store wrapper and its
    construction options) together with the properties its specification
    states about [New], [AddDocuments], [SimilaritySearch], [getOptions]
    and [validateOptions].

    Go packages are rendered as modules of the same name.  The external
    collaborators (the chromem-go engine, the embedder, the UUID generator)
    are interfaces: the adapter is verified against every implementation. *)

From Stdlib Require Import ZArith List Floats.SpecFloat.
From stdpp Require Import base option list gmap strings fin_maps pretty.

Local Open Scope string_scope.

(** ** Go values *)

(** A Go [map[string]V].  [None] is the nil map, [Some ∅] the empty non-nil
    map; both have length 0 and iterate over nothing. *)
Definition gomap (V : Type) : Type := option (gmap string V).

Definition golen {V} (m : gomap V) : nat :=
  match m with
  | None => 0
  | Some g => size g
  end.

(** [m[k]] with the comma-ok result. *)
Definition golookup {V} (k : string) (m : gomap V) : option V :=
  match m with
  | None => None
  | Some g => g !! k
  end.

(** The key/value pairs a [range] loop visits (none for the nil map). *)
Definition gorange {V} (m : gomap V) : list (string * V) :=
  match m with
  | None => []
  | Some g => map_to_list g
  end.

(** Go's [float32], as the IEEE 754 values of the specification of floats
    (binary32 is [prec = 24], [emax = 128]).  Only comparisons are used. *)
Definition float32 : Type := spec_float.

Module f32.
Definition zero : float32 := S754_zero false.
Definition one : float32 := S754_finite false 8388608 (-23).
Definition half : float32 := S754_finite false 8388608 (-24).
Definition nan : float32 := S754_nan.

(** [a < b], [a > b], [a >= b], [a <= b]: false whenever an operand is NaN. *)
Definition lt (a b : float32) : bool :=
  match SFcompare a b with Some Lt => true | _ => false end.
Definition gt (a b : float32) : bool :=
  match SFcompare a b with Some Gt => true | _ => false end.
Definition ge (a b : float32) : bool :=
  match SFcompare a b with Some (Gt | Eq) => true | _ => false end.
Definition le (a b : float32) : bool :=
  match SFcompare a b with Some (Lt | Eq) => true | _ => false end.

(** The closed interval [0,1]. *)
Definition in_unit_interval (t : float32) : Prop :=
  ge t zero = true ∧ le t one = true.
End f32.

(** A dynamically typed Go value ([any]); the nil interface is [None] of
    [option any]. *)
Inductive any : Type :=
  | any_string (s : string)
  | any_int (n : Z)
  | any_float64 (f : spec_float)
  | any_bool (b : bool)
  | any_map_string_string (m : gomap string)
  | any_other (dynamic_type : string).

(** The type assertion [v.(string)] in its comma-ok form. *)
Definition assert_string (v : any) : option string :=
  match v with
  | any_string s => Some s
  | _ => None
  end.

(** The type assertion [v.(map[string]string)] in its comma-ok form. *)
Definition assert_map_string_string (v : any) : option (gomap string) :=
  match v with
  | any_map_string_string m => Some m
  | _ => None
  end.

(** ** Errors *)

Module errors.
(** [New text] is [errors.New(text)]; [Wrap prefix err] is the error made
    by [fmt.Errorf(prefix + "%w", err)]. *)
Inductive error : Type :=
  | New (text : string)
  | Wrap (prefix : string) (err : error).

Fixpoint Error (e : error) : string :=
  match e with
  | New text => text
  | Wrap prefix err => prefix +:+ Error err
  end.
End errors.
Abbreviation error := errors.error.

Module fmt.
Definition Errorf (prefix : string) (err : error) : error :=
  errors.Wrap prefix err.
End fmt.

(** A Go result pair [(T, error)] of which exactly one side is meaningful. *)
Inductive result (A : Type) : Type :=
  | Ok (a : A)
  | Err (err : error).
Arguments Ok {A} a.
Arguments Err {A} err.

(** What a call does: return, or panic. *)
Inductive outcome (A : Type) : Type :=
  | Returns (a : A)
  | Panics (reason : string).
Arguments Returns {A} a.
Arguments Panics {A} reason.

(** ** The framework's types *)

Module schema.
Module Document.
Record t : Type := mk {
  PageContent : string;
  Metadata : gomap any;
  Score : float32;
}.
End Document.
End schema.

Module embeddings.
(** The [Embedder] interface. *)
Record Embedder : Type := {
  EmbedDocuments : list string → result (list (list float32));
  EmbedQuery : string → result (list float32);
}.
End embeddings.

Module vectorstores.
(** Modelled from the spec: the declaration of [vectorstores.Options] is
    not among the sources; these are the five fields the adapter reads
    (namespace override, score threshold, metadata filter, deduplication
    hook, per-call embedder override). *)
Record Options : Type := mkOptions {
  NameSpace : string;
  ScoreThreshold : float32;
  Filters : option any;
  Embedder : option embeddings.Embedder;
  Deduplicater : option (schema.Document.t → bool);
}.

(** [Options{NameSpace: ns}]: every other field has its zero value. *)
Definition withNameSpaceOnly (ns : string) : Options :=
  {| NameSpace := ns;
     ScoreThreshold := f32.zero;
     Filters := None;
     Embedder := None;
     Deduplicater := None |}.

(** An [Option] is a function that updates an [Options] in place. *)
Definition Option : Type := Options → Options.

(** Modelled from the spec: the option constructors are declared next to
    [Options]; each one sets its own field and leaves the others. *)
Definition WithNameSpace (nameSpace : string) : Option :=
  λ o, {| NameSpace := nameSpace;
          ScoreThreshold := ScoreThreshold o;
          Filters := Filters o;
          Embedder := Embedder o;
          Deduplicater := Deduplicater o |}.

Definition WithScoreThreshold (scoreThreshold : float32) : Option :=
  λ o, {| NameSpace := NameSpace o;
          ScoreThreshold := scoreThreshold;
          Filters := Filters o;
          Embedder := Embedder o;
          Deduplicater := Deduplicater o |}.

Definition WithFilters (filters : option any) : Option :=
  λ o, {| NameSpace := NameSpace o;
          ScoreThreshold := ScoreThreshold o;
          Filters := filters;
          Embedder := Embedder o;
          Deduplicater := Deduplicater o |}.

Definition WithEmbedder (embedder : option embeddings.Embedder) : Option :=
  λ o, {| NameSpace := NameSpace o;
          ScoreThreshold := ScoreThreshold o;
          Filters := Filters o;
          Embedder := embedder;
          Deduplicater := Deduplicater o |}.

Definition WithDeduplicater (fn : option (schema.Document.t → bool)) : Option :=
  λ o, {| NameSpace := NameSpace o;
          ScoreThreshold := ScoreThreshold o;
          Filters := Filters o;
          Embedder := Embedder o;
          Deduplicater := fn |}.
End vectorstores.

(** ** The engine: chromem-go *)

Module chromemgo.
Module Document.
Record t : Type := mk {
  ID : string;
  Metadata : gomap string;
  Embedding : list float32;
  Content : string;
}.
End Document.

Module Result.
Record t : Type := mk {
  ID : string;
  Metadata : gomap string;
  Embedding : list float32;
  Content : string;
  Similarity : float32;
}.
End Result.

(** [type EmbeddingFunc func(ctx, text) ([]float32, error)]. *)
Definition EmbeddingFunc : Type := string → outcome (result (list float32)).

(** The part of the engine's API the adapter calls.  [DB] is the state
    behind a [*chromemgo.DB]; a [Collection] is the handle the engine
    hands out.  Writes return the next state whether they succeed or
    not; the two reads ([GetCollection], [Query]) leave it alone. *)
Class Engine : Type := {
  DB : Type;
  Collection : Type;
  NewDB : DB;
  NewPersistentDB : string → bool → result DB;
  GetOrCreateCollection :
    string → gomap string → EmbeddingFunc → DB → result Collection * DB;
  GetCollection : string → EmbeddingFunc → DB → option Collection;
  AddDocument : Collection → Document.t → DB → option error * DB;
  Query :
    Collection → string → Z → gomap string → gomap string → DB →
    result (list Result.t);
}.
End chromemgo.


(** ** The adapter: package chromem *)

Module chromem.

(** *** Construction options *)

Definition defaultPersistPath : string := "./langchaingo".
Definition defaultCompress : bool := false.

(** The configuration half of [Store].  The two fields [New] derives from
    it are kept apart: the state behind the [db] pointer is the [db]
    component of the [World] below, and [ef] is the function [ef]. *)
Record Store : Type := mkStore {
  persistent : bool;
  persistPath : string;
  compress : bool;
  defaultCollectionName : string;
  embedder : option embeddings.Embedder;
}.

(** An [Option] is a function that updates the [Store] it is given. *)
Definition Option : Type := Store → Store.

Definition WithPersistence (path : string) (compress' : bool) : Option :=
  λ s, {| persistent := true;
          persistPath := path;
          compress := compress';
          defaultCollectionName := defaultCollectionName s;
          embedder := embedder s |}.

Definition WithDefaultNamespace (defaultNamespace : string) : Option :=
  λ s, {| persistent := persistent s;
          persistPath := persistPath s;
          compress := compress s;
          defaultCollectionName := defaultNamespace;
          embedder := embedder s |}.

Definition WithEmbedder (embedder' : option embeddings.Embedder) : Option :=
  λ p, {| persistent := persistent p;
          persistPath := persistPath p;
          compress := compress p;
          defaultCollectionName := defaultCollectionName p;
          embedder := embedder' |}.

(** The store [applyClientOptions] starts from. *)
Definition initialStore : Store :=
  {| persistent := false;
     persistPath := defaultPersistPath;
     compress := defaultCompress;
     defaultCollectionName := "";
     embedder := None |}.

(** [for _, opt := range opts { opt(s) }]. *)
Definition applyAll {S : Type} (opts : list (S → S)) (s : S) : S :=
  foldl (λ acc opt, opt acc) s opts.

Definition applyClientOptions (opts : list Option) : result Store :=
  let s := applyAll opts initialStore in
  match embedder s with
  | None => Err (errors.New "embedder is required")
  | Some _ => Ok s
  end.

(** *** Call options *)

Definition getOptions (defaults : vectorstores.Options)
    (opts : list vectorstores.Option) : vectorstores.Options :=
  applyAll opts defaults.

(** [nil] is [None]. *)
Definition validateOptions (opts : vectorstores.Options) : option error :=
  if bool_decide (is_Some (vectorstores.Deduplicater opts))
     || bool_decide (is_Some (vectorstores.Embedder opts))
  then Some (errors.New "unsupported options")
  else if bool_decide (vectorstores.NameSpace opts = "")
  then Some (errors.New "namespace is empty")
  else if f32.lt (vectorstores.ScoreThreshold opts) f32.zero
          || f32.gt (vectorstores.ScoreThreshold opts) f32.one
  then Some (errors.New "score threshold must be between 0 and 1")
  else match vectorstores.Filters opts with
       | Some filters =>
           match assert_map_string_string filters with
           | Some _ => None
           | None => Some (errors.New "filters must be of type map[string]string")
           end
       | None => None
       end.

(** The store's embedding function: the query embedder, reached through
    the store at the time of the call. *)
Definition ef (s : Store) : chromemgo.EmbeddingFunc :=
  λ text,
    match embedder s with
    | Some e => Returns (embeddings.EmbedQuery e text)
    | None => Panics "invalid memory address or nil pointer dereference"
    end.

(** *** Metadata conversions *)

(** The body of the metadata loop of [AddDocuments]: every value must be a
    string; the first one that is not ends the call. *)
Fixpoint stringValues (kvs : list (string * any)) (metadata : gmap string string)
    : option (gmap string string) :=
  match kvs with
  | [] => Some metadata
  | (k, v) :: rest =>
      match assert_string v with
      | Some vString => stringValues rest (<[k := vString]> metadata)
      | None => None
      end
  end.

Definition metadataToStrings (m : gomap any) : result (gomap string) :=
  if bool_decide (0 < golen m)%nat then
    match stringValues (gorange m) ∅ with
    | Some metadata => Ok (Some metadata)
    | None => Err (errors.New "only string values are supported in the metadata map")
    end
  else Ok None.

(** The metadata loop of [SimilaritySearch]. *)
Definition metadataToAny (m : gomap string) : gomap any :=
  if bool_decide (0 < golen m)%nat then
    Some (foldl (λ metadata kv, <[kv.1 := any_string kv.2]> metadata) ∅ (gorange m))
  else None.

Definition resultToDocument (doc : chromemgo.Result.t) : schema.Document.t :=
  {| schema.Document.PageContent := chromemgo.Result.Content doc;
     schema.Document.Metadata := metadataToAny (chromemgo.Result.Metadata doc);
     schema.Document.Score := chromemgo.Result.Similarity doc |}.

(** The threshold loop of [SimilaritySearch]; [res] grows by [append]. *)
Fixpoint filterByThreshold (threshold : float32) (docs : list chromemgo.Result.t)
    (res : list schema.Document.t) : list schema.Document.t :=
  match docs with
  | [] => res
  | doc :: rest =>
      if f32.ge (chromemgo.Result.Similarity doc) threshold
      then filterByThreshold threshold rest (res ++ [resultToDocument doc])
      else filterByThreshold threshold rest res
  end.

(** *** The store's methods, over an engine and a UUID source *)

(** The calls that leave the adapter, in the order they are made. *)
Inductive event : Type :=
  | EvGetOrCreateCollection (name : string)
  | EvGetCollection (name : string)
  | EvEmbedDocuments (texts : list string)
  | EvNewString
  | EvAddDocument (name : string) (doc : chromemgo.Document.t)
  | EvQuery (name query : string) (nResults : Z) (where_ : gomap string).

Section Methods.
Context `{engine : chromemgo.Engine}.

(** [uuid.NewString]: [uuidNewString n] is the identifier of the [n]-th
    draw since the process started. *)
Variable uuidNewString : nat → string.

(** Everything a call can change: the engine's state, the number of
    identifiers drawn, and the log of outgoing calls. *)
Record World : Type := mkWorld {
  db : chromemgo.DB;
  uuids : nat;
  trace : list event;
}.

Definition M (A : Type) : Type := World → outcome A * World.

Definition ret {A} (a : A) : M A := λ w, (Returns a, w).

Definition panic {A} (reason : string) : M A := λ w, (Panics reason, w).

Definition bind {A B} (m : M A) (k : A → M B) : M B :=
  λ w, match m w with
       | (Returns a, w') => k a w'
       | (Panics reason, w') => (Panics reason, w')
       end.

Definition log (e : event) (w : World) : World :=
  {| db := db w; uuids := uuids w; trace := trace w ++ [e] |}.

Notation "x <~ m ;; k" := (bind m (λ x, k))
  (at level 100, m at next level, right associativity, only parsing).

(** **** Outgoing calls *)

Definition uuid_NewString : M string :=
  λ w, (Returns (uuidNewString (uuids w)),
        {| db := db w; uuids := S (uuids w); trace := trace w ++ [EvNewString] |}).

Definition db_GetOrCreateCollection (name : string) (metadata : gomap string)
    (embeddingFunc : chromemgo.EmbeddingFunc) : M (result chromemgo.Collection) :=
  λ w, let '(r, db') := chromemgo.GetOrCreateCollection name metadata embeddingFunc (db w) in
       (Returns r,
        {| db := db'; uuids := uuids w;
           trace := trace w ++ [EvGetOrCreateCollection name] |}).

Definition db_GetCollection (name : string)
    (embeddingFunc : chromemgo.EmbeddingFunc) : M (option chromemgo.Collection) :=
  λ w, (Returns (chromemgo.GetCollection name embeddingFunc (db w)),
        log (EvGetCollection name) w).

Definition c_AddDocument (name : string) (c : chromemgo.Collection)
    (doc : chromemgo.Document.t) : M (option error) :=
  λ w, let '(err, db') := chromemgo.AddDocument c doc (db w) in
       (Returns err,
        {| db := db'; uuids := uuids w;
           trace := trace w ++ [EvAddDocument name doc] |}).

Definition c_Query (name : string) (c : chromemgo.Collection) (query : string)
    (nResults : Z) (where_ whereDocument : gomap string)
    : M (result (list chromemgo.Result.t)) :=
  λ w, (Returns (chromemgo.Query c query nResults where_ whereDocument (db w)),
        log (EvQuery name query nResults where_) w).

(** [s.embedder.EmbedDocuments(ctx, texts)]; a nil embedder panics. *)
Definition embedder_EmbedDocuments (s : Store) (texts : list string)
    : M (result (list (list float32))) :=
  match embedder s with
  | Some e => λ w, (Returns (embeddings.EmbedDocuments e texts),
                    log (EvEmbedDocuments texts) w)
  | None => panic "invalid memory address or nil pointer dereference"
  end.

(** **** New *)

(** The store and the initial state of the database it points to. *)
Definition New (opts : list Option) : result (Store * chromemgo.DB) :=
  match applyClientOptions opts with
  | Err err => Err err
  | Ok s =>
      if persistent s then
        match chromemgo.NewPersistentDB (persistPath s) (compress s) with
        | Err err => Err (fmt.Errorf "couldn't create persistent DB: " err)
        | Ok d => Ok (s, d)
        end
      else Ok (s, chromemgo.NewDB)
  end.

(** **** AddDocuments *)

(** The loop over the documents, from index [i] on; [ids] holds the
    identifiers of the documents already added. *)
Fixpoint addEach (name : string) (c : chromemgo.Collection)
    (embeddings : list (list float32)) (i : nat)
    (docs : list schema.Document.t) (ids : list string) : M (result (list string)) :=
  match docs with
  | [] => ret (Ok ids)
  | doc :: rest =>
      id <~ uuid_NewString ;;
      match metadataToStrings (schema.Document.Metadata doc) with
      | Err err => ret (Err err)
      | Ok metadata =>
          match embeddings !! i with
          | None => panic "index out of range"
          | Some embedding =>
              err <~ c_AddDocument name c
                       {| chromemgo.Document.ID := id;
                          chromemgo.Document.Metadata := metadata;
                          chromemgo.Document.Embedding := embedding;
                          chromemgo.Document.Content := schema.Document.PageContent doc |} ;;
              match err with
              | Some err => ret (Err (fmt.Errorf "couldn't add document: " err))
              | None => addEach name c embeddings (S i) rest (ids ++ [id])
              end
          end
      end
  end.

Definition AddDocuments (s : Store) (docs : list schema.Document.t)
    (options : list vectorstores.Option) : M (result (list string)) :=
  let opts := getOptions (vectorstores.withNameSpaceOnly (defaultCollectionName s)) options in
  match validateOptions opts with
  | Some err => ret (Err (fmt.Errorf "invalid options: " err))
  | None =>
      r <~ db_GetOrCreateCollection (vectorstores.NameSpace opts) None (ef s) ;;
      match r with
      | Err err => ret (Err (fmt.Errorf "couldn't get or create collection: " err))
      | Ok c =>
          let texts := map schema.Document.PageContent docs in
          r <~ embedder_EmbedDocuments s texts ;;
          match r with
          | Err err => ret (Err (fmt.Errorf "couldn't embed documents: " err))
          | Ok embeddings =>
              addEach (vectorstores.NameSpace opts) c embeddings 0 docs []
          end
      end
  end.

(** **** SimilaritySearch *)

(** [where = opts.Filters.(map[string]string)] when a filter is set: the
    assertion without comma-ok panics on any other dynamic type. *)
Definition whereOf (filters : option any) : M (gomap string) :=
  match filters with
  | None => ret None
  | Some f =>
      match assert_map_string_string f with
      | Some m => ret m
      | None => panic "interface conversion: interface {} is not map[string]string"
      end
  end.

Definition SimilaritySearch (s : Store) (query : string) (numDocuments : Z)
    (options : list vectorstores.Option) : M (result (list schema.Document.t)) :=
  let opts := getOptions (vectorstores.withNameSpaceOnly (defaultCollectionName s)) options in
  match validateOptions opts with
  | Some err => ret (Err (fmt.Errorf "invalid options: " err))
  | None =>
      where_ <~ whereOf (vectorstores.Filters opts) ;;
      c <~ db_GetCollection (vectorstores.NameSpace opts) (ef s) ;;
      match c with
      | None =>
          ret (Err (errors.New
            "namespace doesn't exist - create it by adding documents to it first"))
      | Some c =>
          r <~ c_Query (vectorstores.NameSpace opts) c query numDocuments where_ None ;;
          match r with
          | Err err => ret (Err (fmt.Errorf "couldn't query collection: " err))
          | Ok docs =>
              ret (Ok (filterByThreshold (vectorstores.ScoreThreshold opts) docs []))
          end
      end
  end.

(** **** Vocabulary for the statements about [AddDocuments] *)

(** The document [addEach] builds for [doc] at index [i] when [n]
    identifiers were drawn before it. *)
Definition submission (embeddings : list (list float32)) (i n : nat)
    (doc : schema.Document.t) : chromemgo.Document.t :=
  {| chromemgo.Document.ID := uuidNewString n;
     chromemgo.Document.Metadata :=
       match metadataToStrings (schema.Document.Metadata doc) with
       | Ok metadata => metadata
       | Err _ => None
       end;
     chromemgo.Document.Embedding := default [] (embeddings !! i);
     chromemgo.Document.Content := schema.Document.PageContent doc |}.

Fixpoint submissions (embeddings : list (list float32)) (i n : nat)
    (docs : list schema.Document.t) : list chromemgo.Document.t :=
  match docs with
  | [] => []
  | doc :: rest =>
      submission embeddings i n doc :: submissions embeddings (S i) (S n) rest
  end.

(** The engine accepts each of [subs] in turn, starting from state [d]. *)
Fixpoint accepts (c : chromemgo.Collection) (subs : list chromemgo.Document.t)
    (d : chromemgo.DB) : Prop :=
  match subs with
  | [] => True
  | sub :: rest =>
      (chromemgo.AddDocument c sub d).1 = None
      ∧ accepts c rest (chromemgo.AddDocument c sub d).2
  end.

(** The engine's state after [subs] were added in turn. *)
Definition dbAfter (c : chromemgo.Collection) (subs : list chromemgo.Document.t)
    (d : chromemgo.DB) : chromemgo.DB :=
  foldl (λ d' sub, (chromemgo.AddDocument c sub d').2) d subs.

(** The calls [addEach] makes for documents that all go through. *)
Definition addEvents (name : string) (subs : list chromemgo.Document.t) : list event :=
  flat_map (λ sub, [EvNewString; EvAddDocument name sub]) subs.

End Methods.

(** Every value of the metadata map is a string. *)
Definition stringValued (m : gomap any) : Prop :=
  ∀ k v, golookup k m = Some v → ∃ s, v = any_string s.

(** Some value of the metadata map is not a string. *)
Definition hasNonString (m : gomap any) : Prop :=
  ∃ k v, golookup k m = Some v ∧ assert_string v = None.

(** The documents handed to [AddDocument] in a log, in order. *)
Definition addedDocs (evs : list event) : list chromemgo.Document.t :=
  omap (λ ev, match ev with EvAddDocument _ doc => Some doc | _ => None end) evs.

(** The options a call resolves: the store's default namespace first, then
    the options of the call. *)
Definition resolved (s : Store) (options : list vectorstores.Option)
    : vectorstores.Options :=
  getOptions (vectorstores.withNameSpaceOnly (defaultCollectionName s)) options.

(** What [validateOptions] rejects, in words: an unsupported option is
    set, the namespace is empty, the score threshold compares below 0 or
    above 1, or a filter is set that is not a [map[string]string]. *)
Definition violatesValidation (opts : vectorstores.Options) : Prop :=
  is_Some (vectorstores.Deduplicater opts)
  ∨ is_Some (vectorstores.Embedder opts)
  ∨ vectorstores.NameSpace opts = ""
  ∨ f32.lt (vectorstores.ScoreThreshold opts) f32.zero = true
  ∨ f32.gt (vectorstores.ScoreThreshold opts) f32.one = true
  ∨ (∃ filters, vectorstores.Filters opts = Some filters
                ∧ assert_map_string_string filters = None).

(** The error messages, by kind. *)
Definition errMetadataType : error :=
  errors.New "only string values are supported in the metadata map".
Definition errNamespaceNotFound : error :=
  errors.New "namespace doesn't exist - create it by adding documents to it first".
Definition errEmbedderRequired : error :=
  errors.New "embedder is required".
Definition errInvalidOptions (cause : error) : error :=
  fmt.Errorf "invalid options: " cause.

End chromem.

#[global] Instance error_eq_dec : EqDecision error.
Proof. solve_decision. Defined.

(** ** An in-memory engine

    The smallest engine with the interface above: a collection is a named
    list of documents, nothing ever fails, and the similarity of a stored
    document is the first coordinate of its embedding. *)

Module memdb.

Definition matches (where_ : gomap string) (doc : chromemgo.Document.t) : bool :=
  forallb
    (λ kv, bool_decide (golookup kv.1 (chromemgo.Document.Metadata doc) = Some kv.2))
    (gorange where_).

Definition toResult (doc : chromemgo.Document.t) : chromemgo.Result.t :=
  {| chromemgo.Result.ID := chromemgo.Document.ID doc;
     chromemgo.Result.Metadata := chromemgo.Document.Metadata doc;
     chromemgo.Result.Embedding := chromemgo.Document.Embedding doc;
     chromemgo.Result.Content := chromemgo.Document.Content doc;
     chromemgo.Result.Similarity := hd f32.zero (chromemgo.Document.Embedding doc) |}.

Definition engine : chromemgo.Engine :=
  {| chromemgo.DB := gmap string (list chromemgo.Document.t);
     chromemgo.Collection := string;
     chromemgo.NewDB := ∅;
     chromemgo.NewPersistentDB := λ _ _, Ok ∅;
     chromemgo.GetOrCreateCollection := λ name _ _ d,
       (Ok name, match d !! name with Some _ => d | None => <[name := []]> d end);
     chromemgo.GetCollection := λ name _ d,
       match d !! name with Some _ => Some name | None => None end;
     chromemgo.AddDocument := λ c doc d,
       (None, <[c := (default [] (d !! c) ++ [doc])%list]> d);
     chromemgo.Query := λ c _ nResults where_ _ d,
       Ok (take (Z.to_nat nResults)
             (map toResult (List.filter (matches where_) (default [] (d !! c))))) |}.

(** An embedder with one-dimensional vectors. *)
Definition vectorOf (text : string) : list float32 :=
  if bool_decide (text = "Tokyo") then [f32.one] else [f32.half].

Definition embedder : embeddings.Embedder :=
  {| embeddings.EmbedDocuments := λ texts, Ok (map vectorOf texts);
     embeddings.EmbedQuery := λ text, Ok (vectorOf text) |}.

(** A source of identifiers that never repeats. *)
Definition uuidNewString (n : nat) : string := "id-" +:+ pretty n.

Definition store (defaultNamespace : string) : chromem.Store :=
  {| chromem.persistent := false;
     chromem.persistPath := chromem.defaultPersistPath;
     chromem.compress := chromem.defaultCompress;
     chromem.defaultCollectionName := defaultNamespace;
     chromem.embedder := Some embedder |}.

Definition world0 : chromem.World (engine := engine) :=
  {| chromem.db := ∅; chromem.uuids := 0; chromem.trace := [] |}.

Definition tokyo : schema.Document.t :=
  {| schema.Document.PageContent := "Tokyo";
     schema.Document.Metadata := Some {[ "area" := any_string "622" ]};
     schema.Document.Score := f32.zero |}.

Definition paris : schema.Document.t :=
  {| schema.Document.PageContent := "Paris";
     schema.Document.Metadata := Some {[ "area" := any_string "105" ]};
     schema.Document.Score := f32.zero |}.

(** A document whose metadata holds a number. *)
Definition kyoto : schema.Document.t :=
  {| schema.Document.PageContent := "Kyoto";
     schema.Document.Metadata := Some {[ "area" := any_int 828 ]};
     schema.Document.Score := f32.zero |}.

(** The world after Tokyo and Paris were added to the namespace "cities". *)
Definition populated : chromem.World (engine := engine) :=
  (chromem.AddDocuments uuidNewString (store "cities") [tokyo; paris] [] world0).2.

(** A filter of the supported shape. *)
Definition areaFilter : any :=
  any_map_string_string (Some {[ "area" := "622" ]}).

End memdb.

(** ** The construction options, as data

    The fields of [Store] are not exported: a client builds its options
    from the three constructors.  A [Setting] names one such option. *)

Module settings.

Inductive Setting : Type :=
  | Persistence (path : string) (compress : bool)
  | DefaultNamespace (defaultNamespace : string)
  | Embedder (embedder : option embeddings.Embedder).

Definition toOption (o : Setting) : chromem.Option :=
  match o with
  | Persistence path compress => chromem.WithPersistence path compress
  | DefaultNamespace defaultNamespace => chromem.WithDefaultNamespace defaultNamespace
  | Embedder embedder => chromem.WithEmbedder embedder
  end.

(** What a setting says about persistence, the namespace, the embedder. *)
Definition persistenceOf (o : Setting) : option (string * bool) :=
  match o with
  | Persistence path compress => Some (path, compress)
  | _ => None
  end.

Definition namespaceOf (o : Setting) : option string :=
  match o with
  | DefaultNamespace defaultNamespace => Some defaultNamespace
  | _ => None
  end.

Definition embedderOf (o : Setting) : option (option embeddings.Embedder) :=
  match o with
  | Embedder embedder => Some embedder
  | _ => None
  end.

End settings.

(** ** Reading the log *)

Module calls.

(** The batches handed to [EmbedDocuments] in a log, in order. *)
Definition embedCalls (evs : list chromem.event) : list (list string) :=
  omap (λ ev, match ev with chromem.EvEmbedDocuments texts => Some texts | _ => None end)
    evs.

(** The number of identifiers drawn in a log. *)
Definition draws (evs : list chromem.event) : nat :=
  length (List.filter
            (λ ev, match ev with chromem.EvNewString => true | _ => false end) evs).

(** The filter map a search hands to the engine: the asserted map, or the
    nil map when no filter is set. *)
Definition whereMap (filters : option any) : gomap string :=
  match filters with
  | Some (any_map_string_string m) => m
  | _ => None
  end.

(** The two calls of a search that reaches the engine's query. *)
Definition searchCalls (s : chromem.Store) (query : string) (numDocuments : Z)
    (options : list vectorstores.Option) : list chromem.event :=
  [chromem.EvGetCollection (vectorstores.NameSpace (chromem.resolved s options));
   chromem.EvQuery (vectorstores.NameSpace (chromem.resolved s options))
     query numDocuments (whereMap (vectorstores.Filters (chromem.resolved s options)))].

End calls.

(** ** More fixtures for the in-memory engine *)

Module fixtures.

(** An embedder that reports success with a single vector, however many
    texts it is given. *)
Definition shortEmbedder : embeddings.Embedder :=
  {| embeddings.EmbedDocuments := λ texts, Ok (take 1 (map memdb.vectorOf texts));
     embeddings.EmbedQuery := λ text, Ok (memdb.vectorOf text) |}.

Definition shortStore : chromem.Store :=
  {| chromem.persistent := false;
     chromem.persistPath := chromem.defaultPersistPath;
     chromem.compress := chromem.defaultCompress;
     chromem.defaultCollectionName := "cities";
     chromem.embedder := Some shortEmbedder |}.

(** Metadata with two entries. *)
Definition twoEntries : gomap any :=
  Some {[ "area" := any_string "622"; "population" := any_string "9.7" ]}.

Definition twoStrings : gomap string :=
  Some {[ "area" := "622"; "population" := "9.7" ]}.

End fixtures.

(** ** The example program

    [main] of the example, over the client and embedder constructors it
    calls ([openai.New], [embeddings.NewEmbedder]) and over the rendering
    of a score by [fmt.Sprintf].  [log.Fatalf] ends the program with its
    message; each [fmt.Printf] adds one entry to the output. *)

Module example.

Definition nl : string := String (Ascii.ascii_of_nat 10) EmptyString.

(** [meta{"population": p, "area": a}]. *)
Definition meta (population area : string) : gomap any :=
  Some (<["population" := any_string population]>
          (<["area" := any_string area]> ∅)).

Definition city (name population area : string) : schema.Document.t :=
  {| schema.Document.PageContent := name;
     schema.Document.Metadata := meta population area;
     schema.Document.Score := f32.zero |}.

Definition docs : list schema.Document.t :=
  [ city "Tokyo" "9.7" "622";
    city "Kyoto" "1.46" "828";
    city "Hiroshima" "1.2" "905";
    city "Kazuno" "0.04" "707";
    city "Nagoya" "2.3" "326";
    city "Toyota" "0.42" "918";
    city "Fukuoka" "1.59" "341";
    city "Paris" "11" "105";
    city "London" "9.5" "1572";
    city "Santiago" "6.9" "641";
    city "Buenos Aires" "15.5" "203";
    city "Rio de Janeiro" "13.7" "1200";
    city "Sao Paulo" "22.6" "1523" ].

Record exampleCase : Type := {
  name : string;
  query : string;
  numDocuments : Z;
  options : list vectorstores.Option;
}.

Definition exampleCases : list exampleCase :=
  [ {| name := "Up to 5 Cities in Japan";
       query := "Which of these cities are located in Japan?";
       numDocuments := 5;
       options := [] |};
    {| name := "A City in South America";
       query := "Which of these cities are located in South America?";
       numDocuments := 1;
       options := [] |};
    {| name := "A City in South America with an area of 1523 square km";
       query := "Which city is located in South America?";
       numDocuments := Z.of_nat (length docs);
       options :=
         [vectorstores.WithFilters
            (Some (any_map_string_string (Some {[ "area" := "1523" ]})))] |} ].

(** How the program ends. *)
Inductive status : Type :=
  | Done
  | Fatal (message : string)
  | Panicked (reason : string).

Section Main.
Context `{engine : chromemgo.Engine}.
Variable uuidNewString : nat → string.

(** The client of the embedding service, and the two constructors. *)
Variable LLM : Type.
Variable openai_New : result LLM.
Variable embeddings_NewEmbedder : LLM → result embeddings.Embedder.

(** [fmt.Sprintf(" (similarity %f)", score)]. *)
Variable similarityText : float32 → string.

(** The number of identifiers the process drew before [main] adds its
    documents. *)
Variable drawn : nat.

Record Run : Type := mkRun {
  exit : status;
  stdout : list string;
  world : option chromem.World;
}.

(** The loop over the example cases; [i] counts from 0. *)
Fixpoint runCases (store : chromem.Store) (i : nat) (cases : list exampleCase)
    (out : list string) (w : chromem.World) : Run :=
  match cases with
  | [] => {| exit := Done; stdout := out; world := Some w |}
  | ec :: rest =>
      match chromem.SimilaritySearch store (query ec) (numDocuments ec) (options ec) w with
      | (Panics reason, w') =>
          {| exit := Panicked reason; stdout := out; world := Some w' |}
      | (Returns (Err err), w') =>
          {| exit := Fatal ("Couldn't find similar documents: " +:+ errors.Error err +:+ nl);
             stdout := out; world := Some w' |}
      | (Returns (Ok found), w') =>
          let texts :=
            map (λ doc, schema.Document.PageContent doc
                        +:+ similarityText (schema.Document.Score doc)) found in
          runCases store (S i) rest
            (out ++ [pretty (S i) +:+ ". case: " +:+ name ec +:+ nl;
                     "   result:" +:+ nl +:+ "   - "
                     +:+ String.concat (nl +:+ "   - ") texts +:+ nl])
            w'
      end
  end.

Definition main : Run :=
  match openai_New with
  | Err err =>
      {| exit := Fatal ("Couldn't create OpenAI client: " +:+ errors.Error err +:+ nl);
         stdout := []; world := None |}
  | Ok llm =>
      match embeddings_NewEmbedder llm with
      | Err err =>
          {| exit := Fatal ("Couldn't create embedder: " +:+ errors.Error err +:+ nl);
             stdout := []; world := None |}
      | Ok embedder =>
          match chromem.New [chromem.WithEmbedder (Some embedder);
                             chromem.WithDefaultNamespace "langchaingo"] with
          | Err err =>
              {| exit := Fatal ("Couldn't create chromem-go store: "
                                +:+ errors.Error err +:+ nl);
                 stdout := []; world := None |}
          | Ok (store, d) =>
              match chromem.AddDocuments uuidNewString store docs []
                      {| chromem.db := d; chromem.uuids := drawn; chromem.trace := [] |} with
              | (Panics reason, w) =>
                  {| exit := Panicked reason; stdout := []; world := Some w |}
              | (Returns (Err err), w) =>
                  {| exit := Fatal ("Couldn't add documents: " +:+ errors.Error err +:+ nl);
                     stdout := []; world := Some w |}
              | (Returns (Ok _), w) => runCases store 0 exampleCases [] w
              end
          end
      end
  end.

End Main.

(** The store [main] builds around an embedder. *)
Definition store (embedder : embeddings.Embedder) : chromem.Store :=
  {| chromem.persistent := false;
     chromem.persistPath := chromem.defaultPersistPath;
     chromem.compress := chromem.defaultCompress;
     chromem.defaultCollectionName := "langchaingo";
     chromem.embedder := Some embedder |}.

(** The filter of the third case. *)
Definition areaFilter : gomap string := Some {[ "area" := "1523" ]}.

End example.

(** ** Runs of the example program on the in-memory engine *)

Module runs.

(** The client is a token, the embedder is the in-memory one, and a score
    is rendered as the empty text. *)
Definition complete : example.Run (engine := memdb.engine) :=
  example.main memdb.uuidNewString unit (Ok tt) (λ _, Ok memdb.embedder) (λ _, "") 0.

(** The client cannot be created. *)
Definition withoutClient : example.Run (engine := memdb.engine) :=
  example.main memdb.uuidNewString unit (Err (errors.New "missing API key"))
    (λ _, Ok memdb.embedder) (λ _, "") 0.

End runs.

(** * Properties *)

Module ChromemSpec.
Import chromem.

(** ** Comparisons of [float32] *)

Lemma f32_ge_not_lt (a b : float32) : f32.ge a b = true → f32.lt a b = false.
Proof. unfold f32.ge, f32.lt. by destruct (SFcompare a b) as [[]|]. Qed.

Lemma f32_le_not_gt (a b : float32) : f32.le a b = true → f32.gt a b = false.
Proof. unfold f32.le, f32.gt. by destruct (SFcompare a b) as [[]|]. Qed.

(** ** The metadata conversions *)

Lemma golen_pos_lookup {V} (m : gomap V) k v :
  golookup k m = Some v → (0 < golen m)%nat.
Proof.
  destruct m as [g|]; simpl; [|done]. intros Hk.
  assert (size g ≠ 0); [|lia].
  apply map_size_non_empty_iff. intros ->. by rewrite lookup_empty in Hk.
Qed.

Lemma golen_zero_lookup {V} (m : gomap V) k :
  ¬ (0 < golen m)%nat → golookup k m = None.
Proof.
  intros Hlen. destruct (golookup k m) as [v|] eqn:Hk; [|done].
  apply golen_pos_lookup in Hk. contradiction.
Qed.

Lemma elem_of_gorange {V} (m : gomap V) k v :
  (k, v) ∈ gorange m ↔ golookup k m = Some v.
Proof.
  destruct m as [g|]; simpl.
  - apply elem_of_map_to_list.
  - split; [by intros ?%elem_of_nil | done].
Qed.

Lemma NoDup_fst_gorange {V} (m : gomap V) : NoDup (gorange m).*1.
Proof.
  destruct m as [g|]; simpl; [apply NoDup_fst_map_to_list | constructor].
Qed.

Lemma stringValues_None kvs metadata :
  stringValues kvs metadata = None ↔ Exists (λ kv, assert_string kv.2 = None) kvs.
Proof.
  revert metadata. induction kvs as [|[k v] rest IH]; intros metadata; simpl.
  - split; [done | by intros ?%Exists_nil].
  - rewrite Exists_cons. simpl. destruct (assert_string v) as [vString|].
    + rewrite IH. split; [by right | by intros [?|?]].
    + split; [by left | done].
Qed.

Lemma stringValues_Some kvs metadata result :
  NoDup kvs.*1 →
  stringValues kvs metadata = Some result →
  ∀ k s, result !! k = Some s ↔
    ((k, any_string s) ∈ kvs ∨ ((k ∉ kvs.*1) ∧ metadata !! k = Some s)).
Proof.
  revert metadata. induction kvs as [|[k0 v0] rest IH]; intros metadata Hdup; simpl.
  - intros [= ->] k s. split; [|intros [?%elem_of_nil|[_ ?]]; done].
    intros ?. right. split; [apply not_elem_of_nil | done].
  - apply NoDup_cons in Hdup as [Hk0 Hdup].
    destruct v0 as [s0| | | | |]; simpl; try done.
    intros Hrest k s. rewrite (IH _ Hdup Hrest k s), elem_of_cons, not_elem_of_cons.
    destruct (decide (k = k0)) as [->|Hne].
    + rewrite lookup_insert_eq. split.
      * intros [Hin|[_ [= ->]]]; [|by left; left].
        exfalso. apply Hk0. apply list_elem_of_fmap. by exists (k0, any_string s).
      * intros [[[= ->]|Hin]|[[? _] _]]; [by right|by left|done].
    + rewrite lookup_insert_ne by done. split.
      * intros [Hin|[Hnot Hm]]; [left; by right | right; done].
      * intros [[[= -> _]|Hin]|[[_ Hnot] Hm]]; [done|by left|by right].
Qed.

(** At add time: string-valued metadata is stored with the same keys and
    the same strings. *)
Lemma metadataToStrings_stringValued (m : gomap any) :
  stringValued m →
  ∃ stored, metadataToStrings m = Ok stored
    ∧ ∀ k, golookup k stored = golookup k m ≫= assert_string.
Proof.
  intros Hm. unfold metadataToStrings. case_bool_decide as Hlen.
  - destruct (stringValues (gorange m) ∅) as [result|] eqn:Hsv.
    + exists (Some result). split; [done|]. intros k. simpl.
      pose proof (stringValues_Some _ _ _ (NoDup_fst_gorange m) Hsv k) as Hchar.
      destruct (golookup k m) as [v|] eqn:Hk; simpl.
      * destruct (Hm _ _ Hk) as [s ->]. simpl. apply Hchar. left.
        by apply elem_of_gorange.
      * destruct (result !! k) as [s|] eqn:Hr; [|done].
        destruct (proj1 (Hchar s) eq_refl) as [Hin|[_ Hempty]].
        -- apply elem_of_gorange in Hin. congruence.
        -- by rewrite lookup_empty in Hempty.
    + apply stringValues_None, Exists_exists in Hsv as [[k v] [Hin Hv]].
      apply elem_of_gorange, Hm in Hin as [s ->]. done.
  - exists None. split; [done|]. intros k. by rewrite (golen_zero_lookup m k Hlen).
Qed.

(** At add time: one value that is not a string is the metadata-type error. *)
Lemma metadataToStrings_not_stringValued (m : gomap any) k v :
  golookup k m = Some v → assert_string v = None →
  metadataToStrings m = Err errMetadataType.
Proof.
  intros Hk Hv. unfold metadataToStrings.
  rewrite bool_decide_eq_true_2 by eauto using golen_pos_lookup.
  destruct (stringValues (gorange m) ∅) as [result|] eqn:Hsv; [|done].
  assert (stringValues (gorange m) ∅ = None) as Hnone; [|congruence].
  apply stringValues_None, Exists_exists. exists (k, v).
  split; [by apply elem_of_gorange | done].
Qed.

Lemma metadataToStrings_Ok_stringValued (m : gomap any) stored :
  metadataToStrings m = Ok stored → stringValued m.
Proof.
  intros Hok k v Hk. destruct v as [s| | | | |]; [by exists s|..];
    by rewrite (metadataToStrings_not_stringValued m k _ Hk) in Hok.
Qed.

Lemma foldl_insert_any_lookup (kvs : list (string * string)) (metadata : gmap string any) :
  NoDup kvs.*1 →
  ∀ k v, foldl (λ acc kv, <[kv.1 := any_string kv.2]> acc) metadata kvs !! k = Some v ↔
    ((∃ s, v = any_string s ∧ (k, s) ∈ kvs) ∨ ((k ∉ kvs.*1) ∧ metadata !! k = Some v)).
Proof.
  revert metadata. induction kvs as [|[k0 s0] rest IH]; intros metadata Hdup k v; simpl.
  - split; [|intros [[s [_ ?%elem_of_nil]]|[_ ?]]; done].
    intros ?. right. split; [apply not_elem_of_nil | done].
  - apply NoDup_cons in Hdup as [Hk0 Hdup].
    rewrite (IH _ Hdup k v), not_elem_of_cons.
    destruct (decide (k = k0)) as [->|Hne].
    + rewrite lookup_insert_eq. split.
      * intros [[s [-> Hin]]|[_ [= <-]]].
        -- exfalso. apply Hk0. apply list_elem_of_fmap. by exists (k0, s).
        -- left. exists s0. split; [done | apply elem_of_cons; by left].
      * intros [[s [-> [[= ->]|Hin]%elem_of_cons]]|[[? _] _]]; [| |done].
        -- right. done.
        -- left. eauto.
    + rewrite lookup_insert_ne by done. split.
      * intros [[s [-> Hin]]|[Hnot Hm]]; [left|right; done].
        exists s. split; [done | apply elem_of_cons; by right].
      * intros [[s [-> [[= ]|Hin]%elem_of_cons]]|[[_ Hnot] Hm]]; [done|left; eauto|by right].
Qed.

(** At search time: the reported metadata has the same keys, each value
    the same string, now typed [any]. *)
Lemma metadataToAny_lookup (m : gomap string) k :
  golookup k (metadataToAny m) = any_string <$> golookup k m.
Proof.
  unfold metadataToAny. case_bool_decide as Hlen; simpl.
  - pose proof (foldl_insert_any_lookup (gorange m) ∅ (NoDup_fst_gorange m) k) as Hchar.
    destruct (golookup k m) as [s|] eqn:Hk; simpl.
    + apply Hchar. left. exists s. split; [done | by apply elem_of_gorange].
    + match goal with |- ?l = None => destruct l as [v|] eqn:Hr; [|done] end.
      destruct (proj1 (Hchar v) eq_refl) as [[s [_ Hin]]|[_ Hempty]].
      * apply elem_of_gorange in Hin. congruence.
      * by rewrite lookup_empty in Hempty.
  - by rewrite (golen_zero_lookup m k Hlen).
Qed.

Lemma filterByThreshold_filter threshold docs res :
  filterByThreshold threshold docs res =
  (res ++ map resultToDocument
            (List.filter (λ doc, f32.ge (chromemgo.Result.Similarity doc) threshold) docs))%list.
Proof.
  revert res. induction docs as [|doc rest IH]; intros res; simpl.
  - by rewrite app_nil_r.
  - destruct (f32.ge _ _); rewrite IH; [|done]. by rewrite <- app_assoc.
Qed.

Lemma metadataToStrings_Err_hasNonString (m : gomap any) err :
  metadataToStrings m = Err err → err = errMetadataType ∧ hasNonString m.
Proof.
  unfold metadataToStrings. case_bool_decide; [|done].
  destruct (stringValues (gorange m) ∅) as [result|] eqn:Hsv; [done|].
  intros [= <-]. split; [done|].
  apply stringValues_None, Exists_exists in Hsv as [[k v] [Hin Hv]].
  exists k, v. split; [by apply elem_of_gorange | done].
Qed.



(** ** Validation *)

Lemma validateOptions_violates opts :
  violatesValidation opts ↔ is_Some (validateOptions opts).
Proof.
  unfold violatesValidation, validateOptions.
  destruct (vectorstores.Deduplicater opts) as [fn|]; simpl.
  { split; [by eexists | intros _; left; by eexists]. }
  destruct (vectorstores.Embedder opts) as [e|]; simpl.
  { split; [by eexists | intros _; right; left; by eexists]. }
  case_bool_decide as Hns.
  { split; [by eexists | by intros _; right; right; left]. }
  destruct (f32.lt _ _) eqn:Hlt; simpl.
  { split; [by eexists | by intros _; do 3 right; left]. }
  destruct (f32.gt _ _) eqn:Hgt; simpl.
  { split; [by eexists | by intros _; do 4 right; left]. }
  destruct (vectorstores.Filters opts) as [filters|].
  - destruct (assert_map_string_string filters) as [m|] eqn:Hassert.
    + split; [|by intros [? ?]].
      intros [[? ?]|[[? ?]|[?|[?|[?|(f & [= <-] & ?)]]]]]; congruence.
    + split; [by eexists | intros _; do 5 right; eauto].
  - split; [|by intros [? ?]].
    intros [[? ?]|[[? ?]|[?|[?|[?|(f & ? & ?)]]]]]; congruence.
Qed.

Lemma validateOptions_None opts :
  validateOptions opts = None ↔ ¬ violatesValidation opts.
Proof.
  rewrite validateOptions_violates. destruct (validateOptions opts) as [err|].
  - split; [done | intros H; destruct H; by eexists].
  - split; [by intros _ [? ?] | done].
Qed.

(** Only NaN is unordered. *)
Lemma SFcompare_None (a b : float32) :
  SFcompare a b = None → a = f32.nan ∨ b = f32.nan.
Proof.
  destruct a as [sa|sa| |sa ma ea], b as [sb|sb| |sb mb eb]; simpl;
    try (by left); try (by right); done.
Qed.

(** For a threshold that is a number, the range check of [validateOptions]
    passes exactly when the threshold lies in [0,1]. *)
Lemma range_check_number t :
  t ≠ f32.nan →
  f32.in_unit_interval t
  ↔ f32.lt t f32.zero = false ∧ f32.gt t f32.one = false.
Proof.
  intros Ht. unfold f32.in_unit_interval, f32.ge, f32.le, f32.lt, f32.gt.
  destruct (SFcompare t f32.zero) as [c0|] eqn:H0.
  2:{ by destruct (SFcompare_None _ _ H0). }
  destruct (SFcompare t f32.one) as [c1|] eqn:H1.
  2:{ by destruct (SFcompare_None _ _ H1). }
  destruct c0, c1; split; intros [? ?]; done.
Qed.

(** A threshold in [0,1] passes the range check. *)
Lemma in_unit_interval_range t :
  f32.in_unit_interval t → f32.lt t f32.zero = false ∧ f32.gt t f32.one = false.
Proof. intros [? ?]. split; [by apply f32_ge_not_lt | by apply f32_le_not_gt]. Qed.

(** ** Applying options in order *)

Lemma applyAll_app {S : Type} (opts1 opts2 : list (S → S)) (s : S) :
  applyAll (opts1 ++ opts2) s = applyAll opts2 (applyAll opts1 s).
Proof. apply foldl_app. Qed.

(** Options that leave a field alone leave it as it was. *)
Lemma applyAll_preserves {S F : Type} (field : S → F) (opts : list (S → S)) (s : S) :
  Forall (λ opt, ∀ x, field (opt x) = field x) opts →
  field (applyAll opts s) = field s.
Proof.
  revert s. induction opts as [|opt opts IH]; intros s Hopts; [done|].
  apply Forall_cons in Hopts as [Hopt Hopts]. simpl.
  change (field (applyAll opts (opt s)) = field s). by rewrite IH, Hopt.
Qed.

(** The last option that sets a field decides it. *)
Lemma applyAll_last_wins {S F : Type} (field : S → F)
    (before after : list (S → S)) (opt : S → S) (v : F) (s : S) :
  (∀ x, field (opt x) = v) →
  Forall (λ opt', ∀ x, field (opt' x) = field x) after →
  field (applyAll (before ++ opt :: after) s) = v.
Proof.
  intros Hopt Hafter. rewrite applyAll_app.
  change (field (applyAll after (opt (applyAll before s))) = v).
  by rewrite applyAll_preserves, Hopt.
Qed.

(** ** The methods, over any engine and any UUID source *)

Section Methods.
Context `{engine : chromemgo.Engine}.
Variable uuidNewString : nat → string.

Local Abbreviation AddDocuments := (chromem.AddDocuments uuidNewString).
Local Abbreviation addEach := (chromem.addEach uuidNewString).
Local Abbreviation submissions := (chromem.submissions uuidNewString).
Local Abbreviation submission := (chromem.submission uuidNewString).

Lemma submissions_ID embs i n docs :
  map chromemgo.Document.ID (submissions embs i n docs)
  = map uuidNewString (seq n (length docs)).
Proof. revert i n. induction docs; intros; simpl; f_equal; auto. Qed.

Lemma submissions_Content embs i n docs :
  map chromemgo.Document.Content (submissions embs i n docs)
  = map schema.Document.PageContent docs.
Proof. revert i n. induction docs; intros; simpl; f_equal; auto. Qed.

(** One round of the loop for a document that goes through. *)
Lemma addEach_step name c embs i doc rest ids w :
  stringValued (schema.Document.Metadata doc) →
  (i < length embs)%nat →
  (chromemgo.AddDocument c (submission embs i (uuids w) doc) (db w)).1 = None →
  addEach name c embs i (doc :: rest) ids w =
  addEach name c embs (S i) rest (ids ++ [uuidNewString (uuids w)])
    {| db := (chromemgo.AddDocument c (submission embs i (uuids w) doc) (db w)).2;
       uuids := S (uuids w);
       trace := trace w ++ [EvNewString; EvAddDocument name (submission embs i (uuids w) doc)] |}.
Proof.
  intros Hdoc Hi. unfold chromem.submission.
  destruct (metadataToStrings_stringValued _ Hdoc) as (stored & Hconv & _).
  destruct (lookup_lt_is_Some_2 embs i Hi) as [embedding Hemb].
  simpl. unfold bind, uuid_NewString, c_AddDocument. simpl.
  rewrite Hconv, Hemb. simpl.
  destruct (chromemgo.AddDocument c _ (db w)) as [err d'] eqn:Hadd. simpl.
  intros ->. by rewrite <- app_assoc.
Qed.

(** The loop over a run of documents that all go through. *)
Lemma addEach_app name c embs pre rest : ∀ i ids w,
  Forall (λ doc, stringValued (schema.Document.Metadata doc)) pre →
  (i + length pre ≤ length embs)%nat →
  accepts c (submissions embs i (uuids w) pre) (db w) →
  addEach name c embs i (pre ++ rest) ids w =
  addEach name c embs (i + length pre) rest
    (ids ++ map uuidNewString (seq (uuids w) (length pre)))
    {| db := dbAfter c (submissions embs i (uuids w) pre) (db w);
       uuids := uuids w + length pre;
       trace := trace w ++ addEvents name (submissions embs i (uuids w) pre) |}.
Proof.
  induction pre as [|doc pre IH]; intros i ids w Hpre Hlen Hacc.
  - simpl. rewrite !app_nil_r, !Nat.add_0_r. by destruct w.
  - apply Forall_cons in Hpre as [Hdoc Hpre]. simpl in Hlen, Hacc.
    destruct Hacc as [Hadd Hacc].
    change ((doc :: pre) ++ rest)%list with (doc :: (pre ++ rest))%list.
    rewrite addEach_step by (done || lia).
    rewrite IH; [|done|simpl; lia|done]. simpl.
    rewrite <- !app_assoc. simpl.
    replace (i + S (length pre))%nat with (S i + length pre)%nat by lia.
    replace (uuids w + S (length pre))%nat with (S (uuids w + length pre)) by lia.
    done.
Qed.


Lemma addedDocs_app evs1 evs2 :
  addedDocs (evs1 ++ evs2) = (addedDocs evs1 ++ addedDocs evs2)%list.
Proof. apply omap_app. Qed.

Lemma addedDocs_addEvents name subs : addedDocs (addEvents name subs) = subs.
Proof. induction subs as [|sub subs IH]; simpl; [done|]. by f_equal. Qed.

(** [AddDocuments] up to the end of a run of documents that all go
    through: the collection is resolved, the texts are embedded in one
    call, and the run is added. *)
Lemma AddDocuments_app s pre rest options w e c d1 embs :
  validateOptions (resolved s options) = None →
  embedder s = Some e →
  chromemgo.GetOrCreateCollection
    (vectorstores.NameSpace (resolved s options)) None (ef s) (db w) = (Ok c, d1) →
  embeddings.EmbedDocuments e (map schema.Document.PageContent (pre ++ rest)) = Ok embs →
  Forall (λ doc, stringValued (schema.Document.Metadata doc)) pre →
  (length pre ≤ length embs)%nat →
  accepts c (submissions embs 0 (uuids w) pre) d1 →
  AddDocuments s (pre ++ rest) options w =
  addEach (vectorstores.NameSpace (resolved s options)) c embs (length pre) rest
    (map uuidNewString (seq (uuids w) (length pre)))
    {| db := dbAfter c (submissions embs 0 (uuids w) pre) d1;
       uuids := uuids w + length pre;
       trace := trace w
         ++ [EvGetOrCreateCollection (vectorstores.NameSpace (resolved s options));
             EvEmbedDocuments (map schema.Document.PageContent (pre ++ rest))]
         ++ addEvents (vectorstores.NameSpace (resolved s options))
              (submissions embs 0 (uuids w) pre) |}.
Proof.
  intros Hvalid He Hcoll Hembed Hpre Hlen Hacc.
  unfold chromem.AddDocuments. fold (resolved s options). rewrite Hvalid.
  unfold bind at 1. unfold db_GetOrCreateCollection. rewrite Hcoll.
  unfold bind at 1. unfold embedder_EmbedDocuments. rewrite He, Hembed.
  rewrite addEach_app by done. simpl. by rewrite <- !app_assoc.
Qed.

(** C1.  When the options validate, every metadata value is a string, the
    collection is obtained, the embedder returns a vector for every
    document and the engine accepts every document, [AddDocuments] returns
    one identifier per document: the identifiers are fresh draws of the
    UUID source, the i-th one is the ID under which the i-th document was
    handed to the engine, and (the source never repeating itself) they are
    pairwise distinct. *)
Theorem AddDocuments_returns_ids s docs options w e c d1 embs :
  validateOptions (resolved s options) = None →
  Forall (λ doc, stringValued (schema.Document.Metadata doc)) docs →
  embedder s = Some e →
  chromemgo.GetOrCreateCollection
    (vectorstores.NameSpace (resolved s options)) None (ef s) (db w) = (Ok c, d1) →
  embeddings.EmbedDocuments e (map schema.Document.PageContent docs) = Ok embs →
  (length docs ≤ length embs)%nat →
  accepts c (submissions embs 0 (uuids w) docs) d1 →
  Inj (=) (=) uuidNewString →
  ∃ ids w' evs,
    AddDocuments s docs options w = (Returns (Ok ids), w')
    ∧ length ids = length docs
    ∧ ids = map uuidNewString (seq (uuids w) (length docs))
    ∧ NoDup ids
    ∧ trace w' = (trace w ++ evs)%list
    ∧ map chromemgo.Document.ID (addedDocs evs) = ids
    ∧ map chromemgo.Document.Content (addedDocs evs)
      = map schema.Document.PageContent docs.
Proof.
  intros Hvalid Hdocs He Hcoll Hembed Hlen Hacc Hinj.
  pose proof (AddDocuments_app s docs [] options w e c d1 embs) as Hrun.
  rewrite app_nil_r in Hrun. rewrite Hrun by done. clear Hrun.
  set (name := vectorstores.NameSpace (resolved s options)).
  set (subs := submissions embs 0 (uuids w) docs).
  eexists _, _,
    ([EvGetOrCreateCollection name;
      EvEmbedDocuments (map schema.Document.PageContent docs)]
     ++ addEvents name subs)%list.
  split; [reflexivity|].
  assert (addedDocs
            ([EvGetOrCreateCollection name;
              EvEmbedDocuments (map schema.Document.PageContent docs)]
             ++ addEvents name subs) = subs) as Hadded.
  { rewrite addedDocs_app. apply addedDocs_addEvents. }
  rewrite Hadded. split_and!.
  - by rewrite length_map, length_seq.
  - done.
  - change (NoDup (uuidNewString <$> seq (uuids w) (length docs))).
    apply (NoDup_fmap_2 _), NoDup_seq.
  - done.
  - apply submissions_ID.
  - apply submissions_Content.
Qed.



(** Fail fast.  When the resolved options violate validation (an
    unsupported option is set, the namespace is empty, the threshold is
    below 0 or above 1, or the filter is not a [map[string]string]),
    [AddDocuments] and [SimilaritySearch] both return the validation
    error, wrapped, and the world is the one they started in: the engine's
    state is unchanged, no identifier was drawn and no outgoing call was
    logged. *)
Lemma invalid_options_fail_fast s docs query numDocuments options w :
  violatesValidation (resolved s options) →
  ∃ cause,
    validateOptions (resolved s options) = Some cause
    ∧ AddDocuments s docs options w = (Returns (Err (errInvalidOptions cause)), w)
    ∧ SimilaritySearch s query numDocuments options w
      = (Returns (Err (errInvalidOptions cause)), w).
Proof.
  intros [cause Hcause]%validateOptions_violates. exists cause.
  unfold chromem.AddDocuments, SimilaritySearch. fold (resolved s options).
  by rewrite Hcause.
Qed.

(** After validation a filter, when set, is a [map[string]string]. *)
Lemma whereOf_validated opts w :
  validateOptions opts = None →
  ∃ where_,
    whereOf (vectorstores.Filters opts) w = (Returns where_, w)
    ∧ match vectorstores.Filters opts with
      | None => where_ = None
      | Some filters => filters = any_map_string_string where_
      end.
Proof.
  intros Hvalid%validateOptions_None. unfold violatesValidation in Hvalid.
  destruct (vectorstores.Filters opts) as [filters|] eqn:Hfilters; simpl.
  - destruct filters as [| | | |m|]; try (exfalso; apply Hvalid; do 5 right; by eauto).
    by exists m.
  - by exists None.
Qed.

(** C10.  In a [SimilaritySearch] call that got past validation, the
    assertion of the filter to [map[string]string] succeeds: extracting
    the filter returns (it does not panic), with the nil map when no filter
    is set and the asserted map otherwise; and the call as a whole
    returns. *)
Theorem Filters_assertion_cannot_fail s query numDocuments options w :
  validateOptions (resolved s options) = None →
  (∃ where_,
     whereOf (vectorstores.Filters (resolved s options)) w = (Returns where_, w)
     ∧ match vectorstores.Filters (resolved s options) with
       | None => where_ = None
       | Some filters => filters = any_map_string_string where_
       end)
  ∧ ∃ r w', SimilaritySearch s query numDocuments options w = (Returns r, w').
Proof.
  intros Hvalid. destruct (whereOf_validated _ w Hvalid) as (where_ & Hwhere & Hshape).
  split; [by exists where_|].
  unfold SimilaritySearch. fold (resolved s options). rewrite Hvalid.
  unfold bind at 1. rewrite Hwhere.
  unfold bind at 1. unfold db_GetCollection.
  destruct (chromemgo.GetCollection _ _ _) as [c|]; [|by eexists _, _].
  unfold bind, c_Query.
  destruct (chromemgo.Query _ _ _ _ _ _); by eexists _, _.
Qed.

(** What [SimilaritySearch] makes of the engine's results. *)
Lemma SimilaritySearch_query s query numDocuments options w where_ c results :
  validateOptions (resolved s options) = None →
  whereOf (vectorstores.Filters (resolved s options)) w = (Returns where_, w) →
  chromemgo.GetCollection
    (vectorstores.NameSpace (resolved s options)) (ef s) (db w) = Some c →
  chromemgo.Query c query numDocuments where_ None (db w) = Ok results →
  SimilaritySearch s query numDocuments options w =
  (Returns (Ok (map resultToDocument
     (List.filter
        (λ doc, f32.ge (chromemgo.Result.Similarity doc)
                  (vectorstores.ScoreThreshold (resolved s options)))
        results))),
   log (EvQuery (vectorstores.NameSpace (resolved s options)) query numDocuments where_)
     (log (EvGetCollection (vectorstores.NameSpace (resolved s options))) w)).
Proof.
  intros Hvalid Hwhere Hcoll Hquery.
  unfold SimilaritySearch. fold (resolved s options). rewrite Hvalid.
  unfold bind at 1. rewrite Hwhere.
  unfold bind at 1. unfold db_GetCollection. rewrite Hcoll.
  unfold bind, c_Query. simpl. rewrite Hquery.
  by rewrite filterByThreshold_filter.
Qed.

(** A successful [SimilaritySearch] went through the engine's query. *)
Lemma SimilaritySearch_Ok_inv s query numDocuments options w res w' :
  SimilaritySearch s query numDocuments options w = (Returns (Ok res), w') →
  ∃ where_ c results,
    validateOptions (resolved s options) = None
    ∧ whereOf (vectorstores.Filters (resolved s options)) w = (Returns where_, w)
    ∧ chromemgo.GetCollection
        (vectorstores.NameSpace (resolved s options)) (ef s) (db w) = Some c
    ∧ chromemgo.Query c query numDocuments where_ None (db w) = Ok results.
Proof.
  intros Hrun.
  destruct (validateOptions (resolved s options)) as [cause|] eqn:Hvalid.
  { unfold SimilaritySearch in Hrun. fold (resolved s options) in Hrun.
    by rewrite Hvalid in Hrun. }
  destruct (whereOf_validated _ w Hvalid) as (where_ & Hwhere & _).
  destruct (chromemgo.GetCollection
              (vectorstores.NameSpace (resolved s options)) (ef s) (db w))
    as [c|] eqn:Hcoll.
  2:{ unfold SimilaritySearch in Hrun. fold (resolved s options) in Hrun.
      rewrite Hvalid in Hrun. unfold bind at 1 in Hrun. rewrite Hwhere in Hrun.
      unfold bind at 1 in Hrun. unfold db_GetCollection in Hrun.
      by rewrite Hcoll in Hrun. }
  destruct (chromemgo.Query c query numDocuments where_ None (db w))
    as [results|err] eqn:Hquery.
  2:{ unfold SimilaritySearch in Hrun. fold (resolved s options) in Hrun.
      rewrite Hvalid in Hrun. unfold bind at 1 in Hrun. rewrite Hwhere in Hrun.
      unfold bind at 1 in Hrun. unfold db_GetCollection in Hrun.
      rewrite Hcoll in Hrun. unfold bind, c_Query in Hrun. simpl in Hrun.
      by rewrite Hquery in Hrun. }
  by exists where_, c, results.
Qed.

(** C2.  For a threshold [t] in [0,1]: every document [SimilaritySearch]
    returns has a score [>= t], hence not [< t]; a returned list is
    exactly the engine's results with similarity [>= t], in the engine's
    order, each with its content, its metadata and its similarity as
    score; and when nothing else is wrong with the options, the collection
    exists and the engine's query succeeds, that list is returned. *)
Theorem SimilaritySearch_threshold s query numDocuments options w :
  f32.in_unit_interval (vectorstores.ScoreThreshold (resolved s options)) →
  (∀ res w',
     SimilaritySearch s query numDocuments options w = (Returns (Ok res), w') →
     Forall (λ doc,
        f32.ge (schema.Document.Score doc)
          (vectorstores.ScoreThreshold (resolved s options)) = true
        ∧ f32.lt (schema.Document.Score doc)
            (vectorstores.ScoreThreshold (resolved s options)) = false) res
     ∧ ∃ where_ c results,
         chromemgo.GetCollection
           (vectorstores.NameSpace (resolved s options)) (ef s) (db w) = Some c
         ∧ chromemgo.Query c query numDocuments where_ None (db w) = Ok results
         ∧ Forall2 (λ doc r,
              schema.Document.PageContent doc = chromemgo.Result.Content r
              ∧ schema.Document.Score doc = chromemgo.Result.Similarity r
              ∧ ∀ k, golookup k (schema.Document.Metadata doc)
                     = any_string <$> golookup k (chromemgo.Result.Metadata r))
             res
             (List.filter
                (λ r, f32.ge (chromemgo.Result.Similarity r)
                        (vectorstores.ScoreThreshold (resolved s options)))
                results))
  ∧ (∀ where_ c results,
       vectorstores.Deduplicater (resolved s options) = None →
       vectorstores.Embedder (resolved s options) = None →
       vectorstores.NameSpace (resolved s options) ≠ "" →
       whereOf (vectorstores.Filters (resolved s options)) w = (Returns where_, w) →
       chromemgo.GetCollection
         (vectorstores.NameSpace (resolved s options)) (ef s) (db w) = Some c →
       chromemgo.Query c query numDocuments where_ None (db w) = Ok results →
       ∃ w',
         SimilaritySearch s query numDocuments options w =
         (Returns (Ok (map resultToDocument
            (List.filter
               (λ r, f32.ge (chromemgo.Result.Similarity r)
                       (vectorstores.ScoreThreshold (resolved s options)))
               results))), w')).
Proof.
  intros Ht. split.
  - intros res w' Hrun.
    destruct (SimilaritySearch_Ok_inv _ _ _ _ _ _ _ Hrun)
      as (where_ & c & results & Hvalid & Hwhere & Hcoll & Hquery).
    rewrite (SimilaritySearch_query _ _ _ _ _ _ _ _ Hvalid Hwhere Hcoll Hquery) in Hrun.
    injection Hrun as <- <-. split.
    + apply Forall_forall. intros doc [r [-> Hr]]%list_elem_of_fmap.
      apply list_elem_of_In, filter_In in Hr as [_ Hge]. simpl.
      split; [done | by apply f32_ge_not_lt].
    + exists where_, c, results. split_and!; [done|done|].
      induction (List.filter _ results) as [|r rs IH]; simpl; constructor; [|done].
      split_and!; [done|done|]. intros k. apply metadataToAny_lookup.
  - intros where_ c results Hdedup Hemb Hns Hwhere Hcoll Hquery.
    eexists. apply (SimilaritySearch_query _ _ _ _ _ where_ c results); try done.
    apply validateOptions_None. unfold violatesValidation.
    destruct (in_unit_interval_range _ Ht) as [Hlt Hgt].
    rewrite Hdedup, Hemb, Hlt, Hgt.
    intros [[? ?]|[[? ?]|[?|[?|[?|(filters & Hfilters & Hassert)]]]]]; try done.
    rewrite Hfilters in Hwhere. simpl in Hwhere. by rewrite Hassert in Hwhere.
Qed.

(** The loop only ever adds to the log. *)
Lemma addEach_trace name c embs docs : ∀ i ids w,
  ∃ evs, trace (addEach name c embs i docs ids w).2 = (trace w ++ evs)%list.
Proof.
  induction docs as [|doc rest IH]; intros i ids w; simpl.
  - exists []. by rewrite app_nil_r.
  - unfold bind at 1. unfold uuid_NewString.
    destruct (metadataToStrings _) as [stored|err]; [|by exists [EvNewString]].
    destruct (embs !! i) as [embedding|]; [|by exists [EvNewString]].
    unfold bind at 1. unfold c_AddDocument. simpl.
    destruct (chromemgo.AddDocument c _ (db w)) as [[err|] d'].
    + eexists [EvNewString; EvAddDocument name _]. simpl. by rewrite <- app_assoc.
    + match goal with |- context [addEach _ _ _ _ _ ?ids2 ?w2] =>
        destruct (IH (S i) ids2 w2) as [evs Hevs]
      end.
      eexists ([EvNewString; EvAddDocument name _] ++ evs)%list.
      rewrite Hevs. simpl. by rewrite <- !app_assoc.
Qed.

(** Once the options validate, the first thing [AddDocuments] does is get
    or create the collection of the resolved namespace. *)
Lemma AddDocuments_first_call s docs options w :
  validateOptions (resolved s options) = None →
  ∃ evs,
    trace (AddDocuments s docs options w).2 =
    (trace w ++ EvGetOrCreateCollection (vectorstores.NameSpace (resolved s options))
       :: evs)%list.
Proof.
  intros Hvalid. unfold chromem.AddDocuments. fold (resolved s options). rewrite Hvalid.
  unfold bind at 1. unfold db_GetOrCreateCollection.
  destruct (chromemgo.GetOrCreateCollection _ _ _ _) as [[c|err] d1]; [|by exists []].
  unfold bind at 1. unfold embedder_EmbedDocuments.
  destruct (embedder s) as [e|]; [|by exists []].
  destruct (embeddings.EmbedDocuments e _) as [embs|err].
  - match goal with |- context [addEach ?name c embs 0 docs [] ?w1] =>
      destruct (addEach_trace name c embs docs 0 [] w1) as [evs Hevs]
    end.
    eexists (EvEmbedDocuments _ :: evs). rewrite Hevs. simpl.
    by rewrite <- !app_assoc.
  - eexists [EvEmbedDocuments _]. simpl. by rewrite <- app_assoc.
Qed.




(** Once the options validate, the first thing [SimilaritySearch] does is
    look the collection of the resolved namespace up. *)
Lemma SimilaritySearch_first_call s query numDocuments options w :
  validateOptions (resolved s options) = None →
  ∃ evs,
    trace (SimilaritySearch s query numDocuments options w).2 =
    (trace w ++ EvGetCollection (vectorstores.NameSpace (resolved s options))
       :: evs)%list.
Proof.
  intros Hvalid. destruct (whereOf_validated _ w Hvalid) as (where_ & Hwhere & _).
  unfold SimilaritySearch. fold (resolved s options). rewrite Hvalid.
  unfold bind at 1. rewrite Hwhere.
  unfold bind at 1. unfold db_GetCollection.
  destruct (chromemgo.GetCollection _ _ _) as [c|]; [|by exists []].
  unfold bind, c_Query.
  destruct (chromemgo.Query _ _ _ _ _ _); simpl; eexists [_]; by rewrite <- app_assoc.
Qed.


(** C7.  The options of a call are the store's default namespace with
    every other field zero, updated by the options of the call from first
    to last.  So a field has the value of the last option that sets it,
    and the value it started with when no option touches it; the
    namespace of a call without options is the store's default, and a
    namespace option overrides it.  Both methods validate these options
    and address the engine with this namespace. *)
Theorem getOptions_resolution s docs query numDocuments options w :
  resolved s options
  = foldl (λ acc opt, opt acc)
      (vectorstores.withNameSpaceOnly (defaultCollectionName s)) options
  ∧ (∀ opt, resolved s (options ++ [opt]) = opt (resolved s options))
  ∧ (∀ (F : Type) (field : vectorstores.Options → F) defaults before opt after v,
       (∀ x, field (opt x) = v) →
       Forall (λ opt', ∀ x, field (opt' x) = field x) after →
       field (getOptions defaults (before ++ opt :: after)) = v)
  ∧ (∀ (F : Type) (field : vectorstores.Options → F) defaults opts,
       Forall (λ opt, ∀ x, field (opt x) = field x) opts →
       field (getOptions defaults opts) = field defaults)
  ∧ vectorstores.NameSpace (resolved s []) = defaultCollectionName s
  ∧ (∀ nameSpace,
       vectorstores.NameSpace (resolved s (options ++ [vectorstores.WithNameSpace nameSpace]))
       = nameSpace)
  ∧ (∀ cause,
       validateOptions (resolved s options) = Some cause →
       AddDocuments s docs options w = (Returns (Err (errInvalidOptions cause)), w)
       ∧ SimilaritySearch s query numDocuments options w
         = (Returns (Err (errInvalidOptions cause)), w))
  ∧ (validateOptions (resolved s options) = None →
       (∃ evs,
          trace (AddDocuments s docs options w).2 =
          (trace w ++ EvGetOrCreateCollection (vectorstores.NameSpace (resolved s options))
             :: evs)%list)
       ∧ ∃ evs,
           trace (SimilaritySearch s query numDocuments options w).2 =
           (trace w ++ EvGetCollection (vectorstores.NameSpace (resolved s options))
              :: evs)%list).
Proof.
  split_and!.
  - done.
  - intros opt. apply (applyAll_app options [opt]).
  - intros F field defaults before opt after v Hopt Hafter.
    by apply applyAll_last_wins.
  - intros F field defaults opts Hopts. by apply applyAll_preserves.
  - done.
  - intros nameSpace. unfold resolved, getOptions.
    by rewrite (applyAll_app options [vectorstores.WithNameSpace nameSpace]).
  - intros cause Hcause.
    unfold chromem.AddDocuments, SimilaritySearch. fold (resolved s options).
    by rewrite Hcause.
  - intros Hvalid. split.
    + by apply AddDocuments_first_call.
    + by apply SimilaritySearch_first_call.
Qed.

(** ** Construction *)

(** [New] fails exactly as [applyClientOptions] does, or on opening the
    persistent database. *)
Lemma New_applyClientOptions opts :
  New opts =
  match applyClientOptions opts with
  | Err err => Err err
  | Ok s =>
      if persistent s then
        match chromemgo.NewPersistentDB (persistPath s) (compress s) with
        | Err err => Err (fmt.Errorf "couldn't create persistent DB: " err)
        | Ok d => Ok (s, d)
        end
      else Ok (s, chromemgo.NewDB)
  end.
Proof. done. Qed.

(** C8.  Construction fails with the configuration error if and only if
    no embedder is set once all options are applied, for
    [applyClientOptions] and for [New] alike.  With an embedder set,
    [New] succeeds, unless persistence is on and the engine fails to open
    its database (a different, wrapped error); an embedder alone is
    enough to construct an in-memory store with the defaults. *)
Theorem New_embedder_required opts :
  (embedder (applyAll opts initialStore) = None
   ↔ applyClientOptions opts = Err errEmbedderRequired)
  ∧ (embedder (applyAll opts initialStore) = None
     ↔ New opts = Err errEmbedderRequired)
  ∧ (∀ e, embedder (applyAll opts initialStore) = Some e →
       applyClientOptions opts = Ok (applyAll opts initialStore)
       ∧ (persistent (applyAll opts initialStore) = false →
          New opts = Ok (applyAll opts initialStore, chromemgo.NewDB))
       ∧ (∀ d, persistent (applyAll opts initialStore) = true →
            chromemgo.NewPersistentDB
              (persistPath (applyAll opts initialStore))
              (compress (applyAll opts initialStore)) = Ok d →
            New opts = Ok (applyAll opts initialStore, d)))
  ∧ (∀ e, New [WithEmbedder (Some e)]
          = Ok ({| persistent := false;
                   persistPath := "./langchaingo";
                   compress := false;
                   defaultCollectionName := "";
                   embedder := Some e |}, chromemgo.NewDB)).
Proof.
  assert (∀ e, embedder (applyAll opts initialStore) = Some e →
               applyClientOptions opts = Ok (applyAll opts initialStore)) as Hok.
  { intros e He. unfold applyClientOptions. by rewrite He. }
  assert (embedder (applyAll opts initialStore) = None →
          applyClientOptions opts = Err errEmbedderRequired) as Herr.
  { intros He. unfold applyClientOptions. by rewrite He. }
  split_and!.
  - split; [done|]. intros Hfail.
    destruct (embedder (applyAll opts initialStore)) as [e|] eqn:He; [|done].
    by rewrite (Hok e) in Hfail.
  - rewrite New_applyClientOptions. split.
    + intros He. by rewrite Herr.
    + intros Hfail.
      destruct (embedder (applyAll opts initialStore)) as [e|] eqn:He; [|done].
      rewrite (Hok e eq_refl) in Hfail.
      destruct (persistent _); [|done].
      by destruct (chromemgo.NewPersistentDB _ _).
  - intros e He. rewrite New_applyClientOptions, (Hok e He). split_and!; [done|..].
    + by intros ->.
    + intros d -> Hopen. by rewrite Hopen.
  - done.
Qed.

(** C9 (the code at the failing input).  With persistence enabled and the
    empty path, the store's path is the empty string, not
    ["./langchaingo"], and the empty string is what [New] opens the
    database with. *)
Theorem WithPersistence_empty_path e compress' :
  applyClientOptions [WithEmbedder (Some e); WithPersistence "" compress']
  = Ok {| persistent := true;
          persistPath := "";
          compress := compress';
          defaultCollectionName := "";
          embedder := Some e |}
  ∧ bool_decide ("" = defaultPersistPath) = false
  ∧ New [WithEmbedder (Some e); WithPersistence "" compress']
    = match chromemgo.NewPersistentDB "" compress' with
      | Err err => Err (fmt.Errorf "couldn't create persistent DB: " err)
      | Ok d => Ok ({| persistent := true;
                       persistPath := "";
                       compress := compress';
                       defaultCollectionName := "";
                       embedder := Some e |}, d)
      end.
Proof. split_and!; done. Qed.

(** Without the persistence option the defaults stand: persistence off,
    compression off, and the (unused) default path. *)
Lemma applyClientOptions_defaults opts :
  Forall (λ opt, ∀ s, persistent (opt s) = persistent s
                      ∧ persistPath (opt s) = persistPath s
                      ∧ compress (opt s) = compress s) opts →
  persistent (applyAll opts initialStore) = false
  ∧ persistPath (applyAll opts initialStore) = "./langchaingo"
  ∧ compress (applyAll opts initialStore) = false.
Proof.
  intros Hopts. split_and!.
  - rewrite (applyAll_preserves persistent); [done|].
    eapply Forall_impl; [done|]. intros opt Hopt x. apply Hopt.
  - rewrite (applyAll_preserves persistPath); [done|].
    eapply Forall_impl; [done|]. intros opt Hopt x. apply Hopt.
  - rewrite (applyAll_preserves compress); [done|].
    eapply Forall_impl; [done|]. intros opt Hopt x. apply Hopt.
Qed.

End Methods.

(** ** The methods on the in-memory engine *)

Lemma uuidNewString_inj : Inj (=) (=) memdb.uuidNewString.
Proof.
  intros i j Heq. unfold memdb.uuidNewString in Heq. simpl in Heq.
  injection Heq as Heq. by apply (inj pretty).
Qed.

Lemma stringValued_tokyo : stringValued (schema.Document.Metadata memdb.tokyo).
Proof. by apply (metadataToStrings_Ok_stringValued _ (Some {[ "area" := "622" ]})). Qed.

Lemma stringValued_paris : stringValued (schema.Document.Metadata memdb.paris).
Proof. by apply (metadataToStrings_Ok_stringValued _ (Some {[ "area" := "105" ]})). Qed.


(** Two cities are added to a fresh store and get the first two
    identifiers. *)
Lemma AddDocuments_returns_ids_witness :
  ∃ ids w' evs,
    AddDocuments (engine := memdb.engine) memdb.uuidNewString
      (memdb.store "cities") [memdb.tokyo; memdb.paris] [] memdb.world0
    = (Returns (Ok ids), w')
    ∧ length ids = 2%nat
    ∧ ids = map memdb.uuidNewString (seq 0 2)
    ∧ NoDup ids
    ∧ trace w' = ([] ++ evs)%list
    ∧ map chromemgo.Document.ID (addedDocs evs) = ids
    ∧ map chromemgo.Document.Content (addedDocs evs) = ["Tokyo"; "Paris"].
Proof.
  apply (AddDocuments_returns_ids (engine := memdb.engine) memdb.uuidNewString
           (memdb.store "cities") [memdb.tokyo; memdb.paris] [] memdb.world0
           memdb.embedder "cities" {[ "cities" := [] ]} [[f32.one]; [f32.half]]).
  - reflexivity.
  - repeat constructor; [apply stringValued_tokyo | apply stringValued_paris].
  - reflexivity.
  - reflexivity.
  - reflexivity.
  - simpl. lia.
  - simpl. split_and!; reflexivity.
  - apply uuidNewString_inj.
Defined.

(** The in-memory engine accepts whatever it is given. *)
Lemma memdb_accepts c subs : ∀ d, accepts (engine := memdb.engine) c subs d.
Proof. induction subs as [|sub subs IH]; intros d; simpl; [done|]. by split. Qed.

(** With threshold 1, of Tokyo (similarity 1) and Paris (similarity 1/2)
    only Tokyo is returned. *)
Lemma SimilaritySearch_threshold_witness :
  f32.in_unit_interval f32.one
  ∧ ∃ w',
      SimilaritySearch (engine := memdb.engine) (memdb.store "cities") "Japan" 5
        [vectorstores.WithScoreThreshold f32.one] memdb.populated
      = (Returns (Ok [ {| schema.Document.PageContent := "Tokyo";
                          schema.Document.Metadata := Some {[ "area" := any_string "622" ]};
                          schema.Document.Score := f32.one |} ]), w').
Proof.
  assert (f32.in_unit_interval f32.one) as Hone by (by split).
  split; [exact Hone|].
  destruct (SimilaritySearch_threshold (engine := memdb.engine)
              (memdb.store "cities") "Japan" 5
              [vectorstores.WithScoreThreshold f32.one] memdb.populated Hone)
    as [_ Hrun].
  destruct (Hrun None "cities" _ eq_refl eq_refl ltac:(done) eq_refl eq_refl eq_refl)
    as [w' Hw'].
  exists w'. exact Hw'.
Defined.



(** A store without default namespace, called without namespace option. *)
Example invalid_options_fail_fast_empty_namespace :
  ∃ cause,
    validateOptions (resolved (memdb.store "") []) = Some cause
    ∧ AddDocuments (engine := memdb.engine) memdb.uuidNewString
        (memdb.store "") [memdb.tokyo] [] memdb.world0
      = (Returns (Err (errInvalidOptions cause)), memdb.world0)
    ∧ SimilaritySearch (engine := memdb.engine) (memdb.store "") "Japan" 5 []
        memdb.world0
      = (Returns (Err (errInvalidOptions cause)), memdb.world0).
Proof.
  apply invalid_options_fail_fast. right. right. by left.
Qed.

(** A search with a filter of the supported shape. *)
Lemma Filters_assertion_cannot_fail_witness :
  (∃ where_,
     whereOf (engine := memdb.engine) (Some memdb.areaFilter) memdb.populated
     = (Returns where_, memdb.populated)
     ∧ memdb.areaFilter = any_map_string_string where_)
  ∧ ∃ r w',
      SimilaritySearch (engine := memdb.engine) (memdb.store "cities") "Japan" 5
        [vectorstores.WithFilters (Some memdb.areaFilter)] memdb.populated
      = (Returns r, w').
Proof.
  exact (Filters_assertion_cannot_fail (engine := memdb.engine)
           (memdb.store "cities") "Japan" 5
           [vectorstores.WithFilters (Some memdb.areaFilter)] memdb.populated eq_refl).
Defined.


(** ** Where the specification and the code part *)



(** C5 (the code at the failing input).  NaN does not lie in [0,1], but it
    is neither below 0 nor above 1 either: the options validate, the
    search goes on to the engine (and returns nothing, no similarity being
    [>=] NaN), and documents are added. *)
Theorem NaN_threshold_passes_validation :
  f32.ge f32.nan f32.zero = false
  ∧ f32.le f32.nan f32.one = false
  ∧ validateOptions
      (resolved (memdb.store "cities") [vectorstores.WithScoreThreshold f32.nan])
    = None
  ∧ SimilaritySearch (engine := memdb.engine) (memdb.store "cities") "Japan" 5
      [vectorstores.WithScoreThreshold f32.nan] memdb.populated
    = (Returns (Ok []),
       log (EvQuery "cities" "Japan" 5 None)
         (log (EvGetCollection "cities") memdb.populated))
  ∧ (AddDocuments (engine := memdb.engine) memdb.uuidNewString
       (memdb.store "cities") [memdb.tokyo]
       [vectorstores.WithScoreThreshold f32.nan] memdb.world0).1
    = Returns (Ok ["id-0"]).
Proof. split_and!; reflexivity. Qed.

(** The last namespace option of a call decides the namespace, whatever
    the store's default is. *)
Lemma getOptions_resolution_witness :
  vectorstores.NameSpace
    (getOptions (vectorstores.withNameSpaceOnly "cities")
       ([vectorstores.WithNameSpace "towns"]
        ++ vectorstores.WithNameSpace "villages"
           :: [vectorstores.WithScoreThreshold f32.half]))
  = "villages".
Proof.
  destruct (getOptions_resolution (engine := memdb.engine) memdb.uuidNewString
              (memdb.store "cities") [] "Japan" 5 [] memdb.world0)
    as (_ & _ & Hlast & _).
  apply (Hlast string vectorstores.NameSpace).
  - reflexivity.
  - repeat constructor.
Defined.

(** Without an embedder there is no store, with or without other
    options. *)
Lemma New_embedder_required_witness :
  New (engine := memdb.engine) [WithDefaultNamespace "cities"; WithPersistence "db" true]
  = Err errEmbedderRequired.
Proof.
  destruct (New_embedder_required (engine := memdb.engine)
              [WithDefaultNamespace "cities"; WithPersistence "db" true])
    as (_ & Hnew & _).
  apply Hnew. reflexivity.
Defined.

End ChromemSpec.

(** * Further properties of the adapter *)

Module ChromemExtra.
Import chromem ChromemSpec.

(** ** Construction *)

Lemma applyAll_snoc {S : Type} (opts : list (S → S)) (opt : S → S) (s : S) :
  applyAll (opts ++ [opt]) s = opt (applyAll opts s).
Proof. apply applyAll_app. Qed.

(** The store a list of settings builds: persistence is on as soon as one
    setting asks for it (nothing turns it off again), and path,
    compression, namespace and embedder are those of the last setting
    that names them, or the default when there is none. *)
Theorem settings_last_wins (calls : list settings.Setting) :
  persistent (applyAll (map settings.toOption calls) initialStore)
  = bool_decide (omap settings.persistenceOf calls ≠ [])
  ∧ persistPath (applyAll (map settings.toOption calls) initialStore)
    = default "./langchaingo" (fst <$> last (omap settings.persistenceOf calls))
  ∧ compress (applyAll (map settings.toOption calls) initialStore)
    = default false (snd <$> last (omap settings.persistenceOf calls))
  ∧ defaultCollectionName (applyAll (map settings.toOption calls) initialStore)
    = default "" (last (omap settings.namespaceOf calls))
  ∧ embedder (applyAll (map settings.toOption calls) initialStore)
    = default None (last (omap settings.embedderOf calls)).
Proof.
  induction calls as [|call calls IH] using rev_ind; [done|].
  destruct IH as (Hpersistent & Hpath & Hcompress & Hns & Hemb).
  rewrite map_app. simpl map.
  rewrite (applyAll_snoc (map settings.toOption calls) (settings.toOption call)).
  rewrite !omap_app.
  destruct call as [path c|ns|e]; simpl; rewrite ?app_nil_r.
  - rewrite !last_snoc. split_and!; try done.
    symmetry. apply bool_decide_eq_true_2. by intros [_ [=]]%app_eq_nil.
  - rewrite !last_snoc. done.
  - rewrite !last_snoc. done.
Qed.

Section Methods.
Context `{engine : chromemgo.Engine}.
Variable uuidNewString : nat → string.

Local Abbreviation AddDocuments := (chromem.AddDocuments uuidNewString).
Local Abbreviation addEach := (chromem.addEach uuidNewString).
Local Abbreviation submissions := (chromem.submissions uuidNewString).
Local Abbreviation submission := (chromem.submission uuidNewString).

(** Every way [New] can end: without embedder, the configuration error;
    with persistence on and a database that does not open, the engine's
    error, wrapped; otherwise the store built from the options, on the
    database opened with the store's path and compression flag, or on a
    fresh in-memory database when persistence is off. *)
Theorem New_outcomes opts :
  (∀ err, New opts = Err err →
     (err = errEmbedderRequired ∧ embedder (applyAll opts initialStore) = None)
     ∨ ∃ cause,
         err = fmt.Errorf "couldn't create persistent DB: " cause
         ∧ is_Some (embedder (applyAll opts initialStore))
         ∧ persistent (applyAll opts initialStore) = true
         ∧ chromemgo.NewPersistentDB
             (persistPath (applyAll opts initialStore))
             (compress (applyAll opts initialStore)) = Err cause)
  ∧ (∀ s d, New opts = Ok (s, d) →
       s = applyAll opts initialStore
       ∧ is_Some (embedder s)
       ∧ if persistent s
         then chromemgo.NewPersistentDB (persistPath s) (compress s) = Ok d
         else d = chromemgo.NewDB).
Proof.
  rewrite New_applyClientOptions. unfold applyClientOptions.
  destruct (embedder (applyAll opts initialStore)) as [e|] eqn:He.
  - destruct (persistent (applyAll opts initialStore)) eqn:Hp.
    + destruct (chromemgo.NewPersistentDB _ _) as [d0|cause] eqn:Hopen; split.
      * done.
      * intros s d [= <- <-]. rewrite He, Hp. by split_and!.
      * intros err [= <-]. right. exists cause. by split_and!.
      * done.
    + split; [done|]. intros s d [= <- <-]. rewrite He, Hp. by split_and!.
  - split; [|done]. intros err [= <-]. by left.
Qed.

(** ** AddDocuments *)

Lemma submissions_Embedding embs docs : ∀ i n,
  (i + length docs ≤ length embs)%nat →
  map chromemgo.Document.Embedding (submissions embs i n docs)
  = take (length docs) (drop i embs).
Proof.
  induction docs as [|doc rest IH]; intros i n Hlen; simpl; [done|].
  simpl in Hlen.
  destruct (lookup_lt_is_Some_2 embs i ltac:(lia)) as [embedding Hemb].
  rewrite Hemb. simpl. rewrite (drop_S _ _ _ Hemb). simpl. f_equal.
  apply IH. lia.
Qed.

Lemma submissions_ID_length embs docs i n :
  length (submissions embs i n docs) = length docs.
Proof. revert i n. induction docs; intros; simpl; auto. Qed.

(** The loop returns identifiers only along the run in which every
    document went through. *)
Lemma addEach_Ok_inv name c embs docs : ∀ i ids0 w ids w',
  addEach name c embs i docs ids0 w = (Returns (Ok ids), w') →
  Forall (λ doc, stringValued (schema.Document.Metadata doc)) docs
  ∧ (i + length docs ≤ Nat.max i (length embs))%nat
  ∧ accepts c (submissions embs i (uuids w) docs) (db w)
  ∧ ids = (ids0 ++ map uuidNewString (seq (uuids w) (length docs)))%list
  ∧ w' = {| db := dbAfter c (submissions embs i (uuids w) docs) (db w);
            uuids := uuids w + length docs;
            trace := trace w ++ addEvents name (submissions embs i (uuids w) docs) |}.
Proof.
  induction docs as [|doc rest IH]; intros i ids0 w ids w' Hrun.
  - simpl in Hrun. injection Hrun as <- <-. simpl.
    rewrite !app_nil_r, !Nat.add_0_r.
    split_and!; [apply Forall_nil_2|lia|done|done|by destruct w].
  - simpl in Hrun. unfold bind at 1 in Hrun. unfold uuid_NewString in Hrun.
    destruct (metadataToStrings (schema.Document.Metadata doc))
      as [stored|err] eqn:Hconv; [|done].
    destruct (embs !! i) as [embedding|] eqn:Hemb; [|done].
    unfold bind at 1 in Hrun. unfold c_AddDocument in Hrun. simpl in Hrun.
    assert (submission embs i (uuids w) doc
            = {| chromemgo.Document.ID := uuidNewString (uuids w);
                 chromemgo.Document.Metadata := stored;
                 chromemgo.Document.Embedding := embedding;
                 chromemgo.Document.Content := schema.Document.PageContent doc |})
      as Hsub.
    { unfold chromem.submission. by rewrite Hconv, Hemb. }
    rewrite <- Hsub in Hrun.
    destruct (chromemgo.AddDocument c (submission embs i (uuids w) doc) (db w))
      as [[err|] d'] eqn:Hadd; [done|].
    apply IH in Hrun as (Hrest & Hlen & Hacc & Hids & Hw'). simpl in *.
    apply lookup_lt_Some in Hemb.
    split_and!.
    + constructor; [by eapply metadataToStrings_Ok_stringValued | done].
    + lia.
    + by rewrite Hadd.
    + by rewrite Hadd.
    + rewrite Hids, <- app_assoc. done.
    + rewrite Hw', Hadd. simpl. rewrite <- !app_assoc. simpl.
      f_equal. lia.
Qed.

(** [AddDocuments] returns identifiers only when every step succeeded for
    every document. *)
Lemma AddDocuments_Ok_inv s docs options w ids w' :
  AddDocuments s docs options w = (Returns (Ok ids), w') →
  ∃ e c d1 embs,
    validateOptions (resolved s options) = None
    ∧ embedder s = Some e
    ∧ chromemgo.GetOrCreateCollection
        (vectorstores.NameSpace (resolved s options)) None (ef s) (db w) = (Ok c, d1)
    ∧ embeddings.EmbedDocuments e (map schema.Document.PageContent docs) = Ok embs
    ∧ Forall (λ doc, stringValued (schema.Document.Metadata doc)) docs
    ∧ (length docs ≤ length embs)%nat
    ∧ accepts c (submissions embs 0 (uuids w) docs) d1
    ∧ ids = map uuidNewString (seq (uuids w) (length docs))
    ∧ w' = {| db := dbAfter c (submissions embs 0 (uuids w) docs) d1;
              uuids := uuids w + length docs;
              trace := trace w
                ++ [EvGetOrCreateCollection (vectorstores.NameSpace (resolved s options));
                    EvEmbedDocuments (map schema.Document.PageContent docs)]
                ++ addEvents (vectorstores.NameSpace (resolved s options))
                     (submissions embs 0 (uuids w) docs) |}.
Proof.
  unfold chromem.AddDocuments. fold (resolved s options).
  destruct (validateOptions (resolved s options)) as [cause|] eqn:Hvalid; [done|].
  unfold bind at 1. unfold db_GetOrCreateCollection.
  destruct (chromemgo.GetOrCreateCollection _ _ _ _) as [[c|err] d1] eqn:Hcoll; [|done].
  unfold bind at 1. unfold embedder_EmbedDocuments.
  destruct (embedder s) as [e|] eqn:He; [|done].
  destruct (embeddings.EmbedDocuments e _) as [embs|err] eqn:Hembed; [|done].
  intros (Hdocs & Hlen & Hacc & Hids & Hw')%addEach_Ok_inv. simpl in *.
  exists e, c, d1, embs. split_and!; try done.
  rewrite Hw'. by rewrite <- !app_assoc.
Qed.

Lemma embedCalls_addEvents name subs : calls.embedCalls (addEvents name subs) = [].
Proof. induction subs as [|sub subs IH]; simpl; [done|]. exact IH. Qed.

Lemma draws_addEvents name subs : calls.draws (addEvents name subs) = length subs.
Proof.
  unfold calls.draws. induction subs as [|sub subs IH]; simpl; [done|]. by f_equal.
Qed.

(** Identifiers are returned only for a batch that went through as a
    whole: the options validated, every metadata value was a string, and
    every document of the batch was handed to the engine, in order, under
    the identifier returned for it and with the vector the embedder
    returned for its text; one identifier was drawn per document and the
    texts were embedded in a single call. *)
Theorem AddDocuments_all_or_nothing s docs options w ids w' :
  AddDocuments s docs options w = (Returns (Ok ids), w') →
  validateOptions (resolved s options) = None
  ∧ Forall (λ doc, stringValued (schema.Document.Metadata doc)) docs
  ∧ length ids = length docs
  ∧ uuids w' = (uuids w + length docs)%nat
  ∧ ∃ e embs evs,
      embedder s = Some e
      ∧ embeddings.EmbedDocuments e (map schema.Document.PageContent docs) = Ok embs
      ∧ trace w' = (trace w ++ evs)%list
      ∧ map chromemgo.Document.ID (addedDocs evs) = ids
      ∧ map chromemgo.Document.Content (addedDocs evs)
        = map schema.Document.PageContent docs
      ∧ map chromemgo.Document.Embedding (addedDocs evs) = take (length docs) embs
      ∧ calls.embedCalls evs = [map schema.Document.PageContent docs]
      ∧ calls.draws evs = length docs.
Proof.
  intros (e & c & d1 & embs & Hvalid & He & Hcoll & Hembed & Hdocs & Hlen & Hacc
          & -> & ->)%AddDocuments_Ok_inv.
  split_and!; [done|done|by rewrite length_map, length_seq|done|].
  set (name := vectorstores.NameSpace (resolved s options)).
  set (subs := submissions embs 0 (uuids w) docs).
  exists e, embs,
    ([EvGetOrCreateCollection name;
      EvEmbedDocuments (map schema.Document.PageContent docs)]
     ++ addEvents name subs)%list.
  assert (addedDocs
            ([EvGetOrCreateCollection name;
              EvEmbedDocuments (map schema.Document.PageContent docs)]
             ++ addEvents name subs) = subs) as Hadded.
  { rewrite addedDocs_app. apply addedDocs_addEvents. }
  rewrite Hadded. split_and!; try done.
  - apply submissions_ID.
  - apply submissions_Content.
  - unfold subs. by rewrite (submissions_Embedding embs docs 0) by done.
  - simpl. by rewrite embedCalls_addEvents.
  - unfold calls.draws. simpl. fold (calls.draws (addEvents name subs)).
    rewrite draws_addEvents. apply submissions_ID_length.
Qed.

(** Identifiers never collide across calls: a later successful call, made
    in any world in which no identifier drawn so far has been forgotten,
    returns identifiers that differ from each other and from those of the
    earlier call (the UUID source never repeating itself). *)
Theorem AddDocuments_ids_across_calls
    s1 docs1 options1 w ids1 w1 s2 docs2 options2 w1' ids2 w2 :
  Inj (=) (=) uuidNewString →
  AddDocuments s1 docs1 options1 w = (Returns (Ok ids1), w1) →
  (uuids w1 ≤ uuids w1')%nat →
  AddDocuments s2 docs2 options2 w1' = (Returns (Ok ids2), w2) →
  NoDup (ids1 ++ ids2).
Proof.
  intros Hinj Hrun1 Hle Hrun2.
  apply AddDocuments_Ok_inv in Hrun1
    as (e1 & c1 & d1 & embs1 & _ & _ & _ & _ & _ & _ & _ & -> & ->).
  apply AddDocuments_Ok_inv in Hrun2
    as (e2 & c2 & d2 & embs2 & _ & _ & _ & _ & _ & _ & _ & -> & _).
  simpl in Hle.
  change (NoDup ((uuidNewString <$> seq (uuids w) (length docs1))
                 ++ (uuidNewString <$> seq (uuids w1') (length docs2)))).
  rewrite <- fmap_app. apply (NoDup_fmap_2 _).
  apply NoDup_app. split_and!; [apply NoDup_seq| |apply NoDup_seq].
  intros n Hn1%elem_of_seq Hn2%elem_of_seq. lia.
Qed.

(** The empty batch: with valid options the collection is still got or
    created and the embedder still called, with no texts; no identifier is
    drawn, nothing is handed to the collection, and the list of
    identifiers is empty. *)
Theorem AddDocuments_empty_batch s options w e c d1 embs :
  validateOptions (resolved s options) = None →
  embedder s = Some e →
  chromemgo.GetOrCreateCollection
    (vectorstores.NameSpace (resolved s options)) None (ef s) (db w) = (Ok c, d1) →
  embeddings.EmbedDocuments e [] = Ok embs →
  AddDocuments s [] options w =
  (Returns (Ok []),
   {| db := d1;
      uuids := uuids w;
      trace := trace w
        ++ [EvGetOrCreateCollection (vectorstores.NameSpace (resolved s options));
            EvEmbedDocuments []] |}).
Proof.
  intros Hvalid He Hcoll Hembed.
  pose proof (AddDocuments_app uuidNewString s [] [] options w e c d1 embs
                Hvalid He Hcoll Hembed (Forall_nil_2 _) (Nat.le_0_l _) I) as Hrun.
  simpl in Hrun. rewrite Hrun. unfold ret. by rewrite Nat.add_0_r.
Qed.



(** Out of range.  When the embedder reports success with fewer vectors
    than documents, the documents that have a vector are added, an
    identifier is drawn for the first one that has none, and the call
    panics on [embeddings[i]]; what was added stays. *)
Theorem AddDocuments_short_embeddings s docs options w e c d1 embs :
  validateOptions (resolved s options) = None →
  embedder s = Some e →
  chromemgo.GetOrCreateCollection
    (vectorstores.NameSpace (resolved s options)) None (ef s) (db w) = (Ok c, d1) →
  embeddings.EmbedDocuments e (map schema.Document.PageContent docs) = Ok embs →
  (length embs < length docs)%nat →
  Forall (λ doc, stringValued (schema.Document.Metadata doc)) docs →
  accepts c (submissions embs 0 (uuids w) (take (length embs) docs)) d1 →
  AddDocuments s docs options w =
  (Panics "index out of range",
   {| db := dbAfter c (submissions embs 0 (uuids w) (take (length embs) docs)) d1;
      uuids := S (uuids w + length embs);
      trace := trace w
        ++ [EvGetOrCreateCollection (vectorstores.NameSpace (resolved s options));
            EvEmbedDocuments (map schema.Document.PageContent docs)]
        ++ addEvents (vectorstores.NameSpace (resolved s options))
             (submissions embs 0 (uuids w) (take (length embs) docs))
        ++ [EvNewString] |}).
Proof.
  intros Hvalid He Hcoll Hembed Hshort Hdocs Hacc.
  destruct (lookup_lt_is_Some_2 docs (length embs) Hshort) as [doc Hdoc].
  pose proof (take_drop_middle docs (length embs) doc Hdoc) as Hsplit.
  assert (length (take (length embs) docs) = length embs) as Hpre
    by (rewrite length_take; lia).
  revert Hembed. rewrite <- Hsplit at 1 2. intros Hembed.
  rewrite (AddDocuments_app uuidNewString s (take (length embs) docs)
             (doc :: drop (S (length embs)) docs) options w e c d1 embs);
    [|done|done|done|done|by apply Forall_take|lia|done].
  rewrite Hpre. simpl. unfold bind at 1. unfold uuid_NewString.
  assert (stringValued (schema.Document.Metadata doc)) as Hstr.
  { eapply Forall_lookup_1 in Hdocs; [apply Hdocs|done]. }
  destruct (metadataToStrings_stringValued _ Hstr) as (stored & -> & _).
  rewrite (lookup_ge_None_2 embs (length embs)) by lia. simpl.
  unfold panic. rewrite Hsplit. do 2 f_equal. by rewrite <- !app_assoc.
Qed.

(** An error of the loop is raised at one document: either its metadata
    holds a non-string value and only the documents before it were handed
    to the engine, or the engine refused it after accepting the ones
    before it. *)
Lemma addEach_Err_inv name c embs docs : ∀ i ids0 w err w',
  addEach name c embs i docs ids0 w = (Returns (Err err), w') →
  ∃ evs pre doc post,
    trace w' = (trace w ++ evs)%list
    ∧ docs = (pre ++ doc :: post)%list
    ∧ Forall (λ doc, stringValued (schema.Document.Metadata doc)) pre
    ∧ uuids w' = S (uuids w + length pre)
    ∧ ((err = errMetadataType
        ∧ hasNonString (schema.Document.Metadata doc)
        ∧ map chromemgo.Document.Content (addedDocs evs)
          = map schema.Document.PageContent pre)
       ∨ (∃ cause,
            err = fmt.Errorf "couldn't add document: " cause
            ∧ stringValued (schema.Document.Metadata doc)
            ∧ map chromemgo.Document.Content (addedDocs evs)
              = map schema.Document.PageContent (pre ++ [doc]))).
Proof.
  induction docs as [|doc rest IH]; intros i ids0 w err w' Hrun; [done|].
  simpl in Hrun. unfold bind at 1 in Hrun. unfold uuid_NewString in Hrun.
  destruct (metadataToStrings (schema.Document.Metadata doc))
    as [stored|err0] eqn:Hconv.
  - destruct (embs !! i) as [embedding|] eqn:Hemb; [|done].
    unfold bind at 1 in Hrun. unfold c_AddDocument in Hrun. simpl in Hrun.
    destruct (chromemgo.AddDocument c _ (db w)) as [[cause|] d'] eqn:Hadd.
    + injection Hrun as <- <-.
      eexists [EvNewString; EvAddDocument name _], [], doc, rest. simpl.
      split_and!; [by rewrite <- app_assoc|done|constructor|by rewrite Nat.add_0_r|].
      right. exists cause. split_and!; [done| |done].
      by eapply metadataToStrings_Ok_stringValued.
    + apply IH in Hrun as (evs & pre & bad & post & Htrace & -> & Hpre & Huuids & Hkind).
      simpl in Htrace, Huuids.
      eexists ([EvNewString; EvAddDocument name _] ++ evs)%list, (doc :: pre), bad, post.
      split_and!.
      * rewrite Htrace. by rewrite <- !app_assoc.
      * done.
      * constructor; [by eapply metadataToStrings_Ok_stringValued | done].
      * rewrite Huuids. simpl. lia.
      * destruct Hkind as [(-> & Hbad & Hadded)|(cause & -> & Hgood & Hadded)].
        -- left. split_and!; [done|done|]. simpl. by f_equal.
        -- right. exists cause. split_and!; [done|done|]. simpl. by f_equal.
  - injection Hrun as <- <-.
    apply metadataToStrings_Err_hasNonString in Hconv as [-> Hbad].
    exists [EvNewString], [], doc, rest. simpl.
    split_and!; [done|done|constructor|by rewrite Nat.add_0_r|].
    left. by split_and!.
Qed.

(** Every error of [AddDocuments] is of one of five kinds, and the kind
    tells how far the call got: rejected options (nothing happened); the
    engine's error on getting or creating the collection; the embedder's
    error (the collection was got or created, nothing was added); a
    non-string metadata value in some document (exactly the documents
    before it were handed to the engine); the engine's error on adding
    some document (the documents up to and including it were handed to
    the engine).  The engine's and the embedder's errors are wrapped. *)
Theorem AddDocuments_errors s docs options w err w' :
  AddDocuments s docs options w = (Returns (Err err), w') →
  ∃ evs,
    trace w' = (trace w ++ evs)%list
    ∧ ((∃ cause,
          validateOptions (resolved s options) = Some cause
          ∧ err = errInvalidOptions cause ∧ w' = w)
       ∨ (∃ cause,
            err = fmt.Errorf "couldn't get or create collection: " cause
            ∧ evs = [EvGetOrCreateCollection (vectorstores.NameSpace (resolved s options))])
       ∨ (∃ cause,
            err = fmt.Errorf "couldn't embed documents: " cause
            ∧ evs = [EvGetOrCreateCollection (vectorstores.NameSpace (resolved s options));
                     EvEmbedDocuments (map schema.Document.PageContent docs)])
       ∨ (∃ pre doc post,
            err = errMetadataType
            ∧ docs = (pre ++ doc :: post)%list
            ∧ Forall (λ doc, stringValued (schema.Document.Metadata doc)) pre
            ∧ hasNonString (schema.Document.Metadata doc)
            ∧ map chromemgo.Document.Content (addedDocs evs)
              = map schema.Document.PageContent pre)
       ∨ (∃ pre doc post cause,
            err = fmt.Errorf "couldn't add document: " cause
            ∧ docs = (pre ++ doc :: post)%list
            ∧ Forall (λ doc, stringValued (schema.Document.Metadata doc)) (pre ++ [doc])
            ∧ map chromemgo.Document.Content (addedDocs evs)
              = map schema.Document.PageContent (pre ++ [doc]))).
Proof.
  unfold chromem.AddDocuments. fold (resolved s options).
  destruct (validateOptions (resolved s options)) as [cause|] eqn:Hvalid.
  { intros [= <- <-]. exists []. split; [by rewrite app_nil_r|]. left. by exists cause. }
  unfold bind at 1. unfold db_GetOrCreateCollection.
  destruct (chromemgo.GetOrCreateCollection _ _ _ _) as [[c|cause] d1] eqn:Hcoll.
  2:{ intros [= <- <-]. eexists [_]. split; [done|]. right. left. by exists cause. }
  unfold bind at 1. unfold embedder_EmbedDocuments.
  destruct (embedder s) as [e|] eqn:He; [|done].
  destruct (embeddings.EmbedDocuments e _) as [embs|cause] eqn:Hembed.
  2:{ intros [= <- <-]. eexists [_; _]. simpl. split; [by rewrite <- app_assoc|].
      right. right. left. by exists cause. }
  intros (evs & pre & doc & post & Htrace & -> & Hpre & _ & Hkind)%addEach_Err_inv.
  simpl in Htrace.
  exists ([EvGetOrCreateCollection (vectorstores.NameSpace (resolved s options));
           EvEmbedDocuments (map schema.Document.PageContent (pre ++ doc :: post))]
          ++ evs)%list.
  split; [rewrite Htrace; by rewrite <- !app_assoc|].
  do 3 right.
  destruct Hkind as [(-> & Hbad & Hadded)|(cause & -> & Hgood & Hadded)].
  - left. exists pre, doc, post. by split_and!.
  - right. exists pre, doc, post, cause. split_and!; [done|done| |done].
    apply Forall_app. split; [done|]. by constructor.
Qed.

(** ** SimilaritySearch *)


(** Every error of [SimilaritySearch] is of one of three kinds: rejected
    options (nothing happened), no collection for the resolved namespace,
    or the engine's error on the query, wrapped. *)
Theorem SimilaritySearch_errors s query numDocuments options w err w' :
  SimilaritySearch s query numDocuments options w = (Returns (Err err), w') →
  (∃ cause,
     validateOptions (resolved s options) = Some cause
     ∧ err = errInvalidOptions cause ∧ w' = w)
  ∨ (validateOptions (resolved s options) = None
     ∧ chromemgo.GetCollection
         (vectorstores.NameSpace (resolved s options)) (ef s) (db w) = None
     ∧ err = errNamespaceNotFound)
  ∨ (∃ c where_ cause,
       validateOptions (resolved s options) = None
       ∧ chromemgo.GetCollection
           (vectorstores.NameSpace (resolved s options)) (ef s) (db w) = Some c
       ∧ chromemgo.Query c query numDocuments where_ None (db w) = Err cause
       ∧ err = fmt.Errorf "couldn't query collection: " cause).
Proof.
  unfold SimilaritySearch. fold (resolved s options).
  destruct (validateOptions (resolved s options)) as [cause|] eqn:Hvalid.
  { intros [= <- <-]. left. by exists cause. }
  destruct (whereOf_validated _ w Hvalid) as (where_ & Hwhere & _).
  unfold bind at 1. rewrite Hwhere.
  unfold bind at 1. unfold db_GetCollection.
  destruct (chromemgo.GetCollection _ _ _) as [c|] eqn:Hcoll.
  2:{ intros [= <- <-]. right. left. done. }
  unfold bind, c_Query. simpl.
  destruct (chromemgo.Query _ _ _ _ _ _) as [results|cause] eqn:Hquery; [done|].
  intros [= <- <-]. right. right. by exists c, where_, cause.
Qed.

End Methods.
(** ** The order of [float32] *)

(** [>=] and [<=] chain: what is at least [t2] is at least any [t1 <= t2]. *)
Lemma f32_ge_le_trans (x t1 t2 : float32) :
  f32.ge x t2 = true → f32.le t1 t2 = true → f32.ge x t1 = true.
Proof.
  unfold f32.ge, f32.le.
  destruct x as [sx|sx| |sx mx ex], t1 as [s1|s1| |s1 m1 e1],
    t2 as [s2|s2| |s2 m2 e2]; simpl; try done;
    try (by destruct sx); try (by destruct s1); try (by destruct s2);
    try (by destruct sx, s1); try (by destruct sx, s2); try (by destruct s1, s2);
    try (by destruct sx, s1, s2).
  change (Pos.compare_cont Eq mx m2) with (mx ?= m2)%positive.
  change (Pos.compare_cont Eq m1 m2) with (m1 ?= m2)%positive.
  change (Pos.compare_cont Eq mx m1) with (mx ?= m1)%positive.
  destruct sx, s1, s2; try done;
    destruct (Z.compare_spec ex e2), (Z.compare_spec e1 e2), (Z.compare_spec ex e1);
    try done; try lia;
    destruct (Pos.compare_spec mx m2), (Pos.compare_spec m1 m2),
      (Pos.compare_spec mx m1); simpl; try done; lia.
Qed.

Lemma filter_sublist_impl {A} (p q : A → bool) (l : list A) :
  (∀ x, q x = true → p x = true) →
  List.filter q l `sublist_of` List.filter p l.
Proof.
  intros Himpl. induction l as [|x l IH]; simpl; [done|].
  destruct (q x) eqn:Hq.
  - rewrite (Himpl x Hq). by apply sublist_skip.
  - destruct (p x); [by apply sublist_cons | done].
Qed.

(** ** Validation *)

(** What [validateOptions] accepts: no unsupported option, a non-empty
    namespace, a filter that is nil or a [map[string]string] (the nil map
    of that type included), and a threshold in [0,1] or NaN. *)
Theorem validateOptions_accepts opts :
  validateOptions opts = None
  ↔ vectorstores.Deduplicater opts = None
    ∧ vectorstores.Embedder opts = None
    ∧ vectorstores.NameSpace opts ≠ ""
    ∧ (f32.in_unit_interval (vectorstores.ScoreThreshold opts)
       ∨ vectorstores.ScoreThreshold opts = f32.nan)
    ∧ (vectorstores.Filters opts = None
       ∨ ∃ m, vectorstores.Filters opts = Some (any_map_string_string m)).
Proof.
  assert (f32.in_unit_interval (vectorstores.ScoreThreshold opts)
          ∨ vectorstores.ScoreThreshold opts = f32.nan
          ↔ f32.lt (vectorstores.ScoreThreshold opts) f32.zero = false
            ∧ f32.gt (vectorstores.ScoreThreshold opts) f32.one = false) as Hrange.
  { destruct (vectorstores.ScoreThreshold opts) as [sg|sg| |sg m e] eqn:Ht.
    - rewrite <- range_check_number by done. split; [intros [?|?]; done | by left].
    - rewrite <- range_check_number by done. split; [intros [?|?]; done | by left].
    - split; [done | by right].
    - rewrite <- range_check_number by done. split; [intros [?|?]; done | by left]. }
  rewrite Hrange. unfold validateOptions.
  destruct (vectorstores.Deduplicater opts) as [fn|]; simpl.
  { split; [done | by intros (? & _)]. }
  destruct (vectorstores.Embedder opts) as [e|]; simpl.
  { split; [done | by intros (_ & ? & _)]. }
  case_bool_decide as Hns.
  { split; [done | by intros (_ & _ & ? & _)]. }
  destruct (f32.lt _ _); simpl.
  { split; [done | by intros (_ & _ & _ & [? _] & _)]. }
  destruct (f32.gt _ _); simpl.
  { split; [done | by intros (_ & _ & _ & [_ ?] & _)]. }
  destruct (vectorstores.Filters opts) as [filters|].
  - destruct filters as [| | | |m|]; simpl.
    5:{ split; [|done]. intros _. split_and!; try done. right. by exists m. }
    all: split; [done|]; by intros (_ & _ & _ & _ & [?|[m ?]]).
  - split; [|done]. intros _. split_and!; try done. by left.
Qed.

(** ** The metadata loops *)

Lemma NoDup_fst_Permutation {V} (kvs : list (string * V)) (m : gomap V) :
  kvs ≡ₚ gorange m → NoDup kvs.*1.
Proof. intros Hperm. rewrite Hperm. apply NoDup_fst_gorange. Qed.

(** Go ranges over a map in no fixed order.  The metadata loops do not
    care: over any ordering of the entries of a map, the loop of
    [AddDocuments] fails or succeeds alike and builds the same map, and so
    does the loop of [SimilaritySearch]. *)
Theorem metadata_loops_any_order (m : gomap any) (r : gomap string)
    (kvs : list (string * any)) (kvr : list (string * string)) :
  kvs ≡ₚ gorange m →
  kvr ≡ₚ gorange r →
  stringValues kvs ∅ = stringValues (gorange m) ∅
  ∧ foldl (λ metadata kv, <[kv.1 := any_string kv.2]> metadata)
      (∅ : gmap string any) kvr
    = foldl (λ metadata kv, <[kv.1 := any_string kv.2]> metadata) ∅ (gorange r).
Proof.
  intros Hkvs Hkvr. split.
  - destruct (stringValues kvs ∅) as [md1|] eqn:H1,
      (stringValues (gorange m) ∅) as [md2|] eqn:H2.
    + f_equal. apply map_eq. intros k. apply option_eq. intros str.
      rewrite (stringValues_Some _ _ _ (NoDup_fst_Permutation _ _ Hkvs) H1 k str).
      rewrite (stringValues_Some _ _ _ (NoDup_fst_gorange m) H2 k str).
      by rewrite Hkvs.
    + apply (proj1 (stringValues_None _ _)) in H2. rewrite <- Hkvs in H2.
      apply (proj2 (stringValues_None kvs ∅)) in H2. congruence.
    + apply (proj1 (stringValues_None _ _)) in H1. rewrite Hkvs in H1.
      apply (proj2 (stringValues_None (gorange m) ∅)) in H1. congruence.
    + done.
  - apply map_eq. intros k. apply option_eq. intros v.
    rewrite (foldl_insert_any_lookup _ _ (NoDup_fst_Permutation _ _ Hkvr) k v).
    rewrite (foldl_insert_any_lookup _ _ (NoDup_fst_gorange r) k v).
    rewrite lookup_empty.
    split; (intros [(str & -> & Hin)|[_ ?]]; [left|done]);
      exists str; (split; [done|]); [by rewrite <- Hkvr | by rewrite Hkvr].
Qed.

(** The conversions keep the number of entries, and turn the empty map,
    nil or not, into the nil map: a document without metadata is stored,
    and reported, with nil metadata. *)
Theorem metadata_sizes :
  (∀ m : gomap string,
     golen (metadataToAny m) = golen m
     ∧ (metadataToAny m = None ↔ golen m = 0%nat))
  ∧ (∀ (m : gomap any) stored,
       metadataToStrings m = Ok stored →
       golen stored = golen m ∧ (stored = None ↔ golen m = 0%nat)).
Proof.
  split.
  - intros m. unfold metadataToAny. case_bool_decide as Hlen; simpl.
    + split; [|split; [done|lia]].
      destruct m as [g|]; simpl in *; [|lia].
      rewrite <- (map_size_fmap any_string g). f_equal.
      apply map_eq. intros k. rewrite lookup_fmap.
      pose proof (metadataToAny_lookup (Some g) k) as Hk.
      unfold metadataToAny in Hk. by rewrite bool_decide_eq_true_2 in Hk by done.
    + split; [lia|]. split; [lia|done].
  - intros m stored Hconv.
    pose proof (metadataToStrings_Ok_stringValued _ _ Hconv) as Hm.
    destruct (metadataToStrings_stringValued _ Hm) as (stored' & Hconv' & Hlookup).
    rewrite Hconv in Hconv'. injection Hconv' as <-.
    unfold metadataToStrings in Hconv. case_bool_decide as Hlen.
    + destruct (stringValues (gorange m) ∅) as [md|]; [|done].
      injection Hconv as <-. split; [|split; [done|lia]].
      destruct m as [g|]; simpl in *; [|lia].
      rewrite <- !size_dom. f_equal. apply set_eq. intros k.
      rewrite !elem_of_dom, (Hlookup k).
      destruct (g !! k) as [v|] eqn:Hk; simpl.
      * destruct (Hm k v Hk) as [str ->]. simpl. split; by eexists.
      * split; by intros [? ?].
    + injection Hconv as <-. simpl. split; [lia|]. split; [lia|done].
Qed.

(** ** Which options matter to which method *)

Section Options.
Context `{engine : chromemgo.Engine}.
Variable uuidNewString : nat → string.

Local Abbreviation AddDocuments := (chromem.AddDocuments uuidNewString).

Lemma resolved_snoc s options opt :
  resolved s (options ++ [opt]) = opt (resolved s options).
Proof. apply (applyAll_app options [opt]). Qed.

(** Of its options, [AddDocuments] uses the namespace only: two lists of
    options that both validate and resolve to the same namespace add the
    same documents in the same way, whatever threshold or filter they
    carry. *)
Theorem AddDocuments_uses_namespace_only s docs options1 options2 w :
  validateOptions (resolved s options1) = None →
  validateOptions (resolved s options2) = None →
  vectorstores.NameSpace (resolved s options1)
  = vectorstores.NameSpace (resolved s options2) →
  AddDocuments s docs options1 w = AddDocuments s docs options2 w.
Proof.
  intros Hvalid1 Hvalid2 Hns. unfold chromem.AddDocuments.
  fold (resolved s options1). fold (resolved s options2).
  by rewrite Hvalid1, Hvalid2, Hns.
Qed.

(** Raising the threshold only removes results: a search repeated in the
    same world with a threshold at least as high returns a sublist of what
    it returned before, in the same order. *)
Theorem SimilaritySearch_threshold_monotone
    s query numDocuments options t2 w res1 w1 res2 w2 :
  f32.le (vectorstores.ScoreThreshold (resolved s options)) t2 = true →
  SimilaritySearch s query numDocuments options w = (Returns (Ok res1), w1) →
  SimilaritySearch s query numDocuments
    (options ++ [vectorstores.WithScoreThreshold t2]) w = (Returns (Ok res2), w2) →
  res2 `sublist_of` res1.
Proof.
  intros Hle Hrun1 Hrun2.
  destruct (SimilaritySearch_Ok_inv _ _ _ _ _ _ _ Hrun1)
    as (where1 & c1 & results1 & Hvalid1 & Hwhere1 & Hcoll1 & Hquery1).
  destruct (SimilaritySearch_Ok_inv _ _ _ _ _ _ _ Hrun2)
    as (where2 & c2 & results2 & Hvalid2 & Hwhere2 & Hcoll2 & Hquery2).
  rewrite (SimilaritySearch_query _ _ _ _ _ _ _ _ Hvalid1 Hwhere1 Hcoll1 Hquery1) in Hrun1.
  rewrite (SimilaritySearch_query _ _ _ _ _ _ _ _ Hvalid2 Hwhere2 Hcoll2 Hquery2) in Hrun2.
  injection Hrun1 as <- _. injection Hrun2 as <- _.
  rewrite resolved_snoc in Hwhere2, Hcoll2 |- *. simpl in Hwhere2, Hcoll2 |- *.
  rewrite Hwhere1 in Hwhere2. injection Hwhere2 as <-.
  rewrite Hcoll1 in Hcoll2. injection Hcoll2 as <-.
  rewrite Hquery1 in Hquery2. injection Hquery2 as <-.
  change (resultToDocument <$> List.filter
            (λ doc, f32.ge (chromemgo.Result.Similarity doc) t2) results1
          `sublist_of`
          resultToDocument <$> List.filter
            (λ doc, f32.ge (chromemgo.Result.Similarity doc)
                      (vectorstores.ScoreThreshold (resolved s options))) results1).
  apply fmap_sublist, filter_sublist_impl.
  intros r Hr. by eapply f32_ge_le_trans.
Qed.

(** Without a threshold option the threshold is 0, which is not "no
    threshold": a search returns exactly the engine's results whose
    similarity is [>= 0], so a result with a negative similarity (or NaN)
    is dropped, and everything is returned only when no similarity is
    below 0. *)
Theorem SimilaritySearch_default_threshold s query numDocuments options w res w' :
  Forall (λ opt, ∀ x, vectorstores.ScoreThreshold (opt x) = vectorstores.ScoreThreshold x)
    options →
  SimilaritySearch s query numDocuments options w = (Returns (Ok res), w') →
  ∃ where_ c results,
    chromemgo.GetCollection
      (vectorstores.NameSpace (resolved s options)) (ef s) (db w) = Some c
    ∧ chromemgo.Query c query numDocuments where_ None (db w) = Ok results
    ∧ res = map resultToDocument
              (List.filter (λ r, f32.ge (chromemgo.Result.Similarity r) f32.zero) results)
    ∧ Forall (λ doc, f32.lt (schema.Document.Score doc) f32.zero = false) res
    ∧ (length res = length results
       ↔ Forall (λ r, f32.ge (chromemgo.Result.Similarity r) f32.zero = true) results).
Proof.
  intros Hopts Hrun.
  assert (vectorstores.ScoreThreshold (resolved s options) = f32.zero) as Ht.
  { unfold resolved, getOptions.
    by rewrite (applyAll_preserves vectorstores.ScoreThreshold). }
  destruct (SimilaritySearch_Ok_inv _ _ _ _ _ _ _ Hrun)
    as (where_ & c & results & Hvalid & Hwhere & Hcoll & Hquery).
  rewrite (SimilaritySearch_query _ _ _ _ _ _ _ _ Hvalid Hwhere Hcoll Hquery) in Hrun.
  injection Hrun as <- _. rewrite Ht.
  exists where_, c, results. split_and!; [done|done|done| |].
  - apply Forall_forall. intros doc [r [-> Hr]]%list_elem_of_fmap.
    apply list_elem_of_In, filter_In in Hr as [_ Hge]. simpl.
    by apply f32_ge_not_lt.
  - rewrite length_map. clear. induction results as [|r results IH]; simpl.
    + split; [constructor|done].
    + destruct (f32.ge (chromemgo.Result.Similarity r) f32.zero) eqn:Hr; simpl.
      * rewrite Forall_cons. split.
        -- intros [= Hlen]. split; [done|]. by apply IH.
        -- intros [_ Hall]. f_equal. by apply IH.
      * split.
        -- intros Hlen. pose proof (List.filter_length_le
             (λ r, f32.ge (chromemgo.Result.Similarity r) f32.zero) results). lia.
        -- intros [Hbad _]%Forall_cons. congruence.
Qed.

End Options.
(** ** The further properties on the in-memory engine *)

(** The two identifiers returned for Tokyo and Paris. *)
Lemma AddDocuments_all_or_nothing_witness :
  validateOptions (resolved (memdb.store "cities") []) = None
  ∧ Forall (λ doc, stringValued (schema.Document.Metadata doc)) [memdb.tokyo; memdb.paris]
  ∧ length ["id-0"; "id-1"] = length [memdb.tokyo; memdb.paris]
  ∧ uuids memdb.populated = (uuids memdb.world0 + length [memdb.tokyo; memdb.paris])%nat
  ∧ ∃ e embs evs,
      embedder (memdb.store "cities") = Some e
      ∧ embeddings.EmbedDocuments e
          (map schema.Document.PageContent [memdb.tokyo; memdb.paris]) = Ok embs
      ∧ trace memdb.populated = (trace memdb.world0 ++ evs)%list
      ∧ map chromemgo.Document.ID (addedDocs evs) = ["id-0"; "id-1"]
      ∧ map chromemgo.Document.Content (addedDocs evs)
        = map schema.Document.PageContent [memdb.tokyo; memdb.paris]
      ∧ map chromemgo.Document.Embedding (addedDocs evs)
        = take (length [memdb.tokyo; memdb.paris]) embs
      ∧ calls.embedCalls evs
        = [map schema.Document.PageContent [memdb.tokyo; memdb.paris]]
      ∧ calls.draws evs = length [memdb.tokyo; memdb.paris].
Proof.
  exact (AddDocuments_all_or_nothing (engine := memdb.engine) memdb.uuidNewString
           (memdb.store "cities") [memdb.tokyo; memdb.paris] [] memdb.world0
           ["id-0"; "id-1"] memdb.populated eq_refl).
Defined.

(** Paris added again after Tokyo and Paris: three distinct identifiers. *)
Lemma AddDocuments_ids_across_calls_witness :
  NoDup (["id-0"; "id-1"] ++ ["id-2"]).
Proof.
  exact (AddDocuments_ids_across_calls (engine := memdb.engine) memdb.uuidNewString
           (memdb.store "cities") [memdb.tokyo; memdb.paris] [] memdb.world0
           ["id-0"; "id-1"] memdb.populated
           (memdb.store "cities") [memdb.paris] [] memdb.populated ["id-2"]
           (chromem.AddDocuments memdb.uuidNewString (memdb.store "cities")
              [memdb.paris] [] memdb.populated).2
           uuidNewString_inj eq_refl (le_n _) eq_refl).
Defined.

(** The empty batch on a fresh store creates the collection "cities". *)
Lemma AddDocuments_empty_batch_witness :
  chromem.AddDocuments (engine := memdb.engine) memdb.uuidNewString
    (memdb.store "cities") [] [] memdb.world0
  = (Returns (Ok []),
     {| db := {[ "cities" := [] ]};
        uuids := 0;
        trace := [] ++ [EvGetOrCreateCollection "cities"; EvEmbedDocuments []] |}).
Proof.
  exact (AddDocuments_empty_batch (engine := memdb.engine) memdb.uuidNewString
           (memdb.store "cities") [] memdb.world0 memdb.embedder "cities"
           {[ "cities" := [] ]} [] eq_refl eq_refl eq_refl eq_refl).
Defined.


(** One vector for two documents: Tokyo is added, then the call panics. *)
Lemma AddDocuments_short_embeddings_witness :
  chromem.AddDocuments (engine := memdb.engine) memdb.uuidNewString
    fixtures.shortStore [memdb.tokyo; memdb.paris] [] memdb.world0
  = (Panics "index out of range",
     {| db := dbAfter (engine := memdb.engine) "cities"
                (chromem.submissions memdb.uuidNewString [[f32.one]] 0 0 [memdb.tokyo])
                {[ "cities" := [] ]};
        uuids := 2;
        trace := [] ++ [EvGetOrCreateCollection "cities"; EvEmbedDocuments ["Tokyo"; "Paris"]]
                 ++ addEvents "cities"
                      (chromem.submissions memdb.uuidNewString [[f32.one]] 0 0 [memdb.tokyo])
                 ++ [EvNewString] |}).
Proof.
  apply (AddDocuments_short_embeddings (engine := memdb.engine) memdb.uuidNewString
           fixtures.shortStore [memdb.tokyo; memdb.paris] [] memdb.world0
           fixtures.shortEmbedder "cities" {[ "cities" := [] ]} [[f32.one]]).
  - reflexivity.
  - reflexivity.
  - reflexivity.
  - reflexivity.
  - simpl. lia.
  - repeat constructor; [apply stringValued_tokyo | apply stringValued_paris].
  - apply memdb_accepts.
Defined.

(** A batch with Kyoto, whose area is a number, after Tokyo. *)
Lemma AddDocuments_errors_witness :
  ∃ evs,
    trace (chromem.AddDocuments (engine := memdb.engine) memdb.uuidNewString
             (memdb.store "cities") [memdb.tokyo; memdb.kyoto] [] memdb.world0).2
    = (trace memdb.world0 ++ evs)%list
    ∧ ((∃ cause,
          validateOptions (resolved (memdb.store "cities") []) = Some cause
          ∧ errMetadataType = errInvalidOptions cause
          ∧ (chromem.AddDocuments (engine := memdb.engine) memdb.uuidNewString
               (memdb.store "cities") [memdb.tokyo; memdb.kyoto] [] memdb.world0).2
            = memdb.world0)
       ∨ (∃ cause,
            errMetadataType = fmt.Errorf "couldn't get or create collection: " cause
            ∧ evs = [EvGetOrCreateCollection
                       (vectorstores.NameSpace (resolved (memdb.store "cities") []))])
       ∨ (∃ cause,
            errMetadataType = fmt.Errorf "couldn't embed documents: " cause
            ∧ evs = [EvGetOrCreateCollection
                       (vectorstores.NameSpace (resolved (memdb.store "cities") []));
                     EvEmbedDocuments
                       (map schema.Document.PageContent [memdb.tokyo; memdb.kyoto])])
       ∨ (∃ pre doc post,
            errMetadataType = errMetadataType
            ∧ [memdb.tokyo; memdb.kyoto] = (pre ++ doc :: post)%list
            ∧ Forall (λ doc, stringValued (schema.Document.Metadata doc)) pre
            ∧ hasNonString (schema.Document.Metadata doc)
            ∧ map chromemgo.Document.Content (addedDocs evs)
              = map schema.Document.PageContent pre)
       ∨ (∃ pre doc post cause,
            errMetadataType = fmt.Errorf "couldn't add document: " cause
            ∧ [memdb.tokyo; memdb.kyoto] = (pre ++ doc :: post)%list
            ∧ Forall (λ doc, stringValued (schema.Document.Metadata doc)) (pre ++ [doc])
            ∧ map chromemgo.Document.Content (addedDocs evs)
              = map schema.Document.PageContent (pre ++ [doc]))).
Proof.
  exact (AddDocuments_errors (engine := memdb.engine) memdb.uuidNewString
           (memdb.store "cities") [memdb.tokyo; memdb.kyoto] [] memdb.world0
           errMetadataType _ eq_refl).
Defined.

(** A search in "towns", which has no collection. *)
Lemma SimilaritySearch_errors_witness :
  (∃ cause,
     validateOptions (resolved (memdb.store "towns") []) = Some cause
     ∧ errNamespaceNotFound = errInvalidOptions cause
     ∧ log (EvGetCollection "towns") memdb.populated = memdb.populated)
  ∨ (validateOptions (resolved (memdb.store "towns") []) = None
     ∧ chromemgo.GetCollection (Engine := memdb.engine)
         (vectorstores.NameSpace (resolved (memdb.store "towns") []))
         (ef (memdb.store "towns")) (db memdb.populated) = None
     ∧ errNamespaceNotFound = errNamespaceNotFound)
  ∨ (∃ c where_ cause,
       validateOptions (resolved (memdb.store "towns") []) = None
       ∧ chromemgo.GetCollection (Engine := memdb.engine)
           (vectorstores.NameSpace (resolved (memdb.store "towns") []))
           (ef (memdb.store "towns")) (db memdb.populated) = Some c
       ∧ chromemgo.Query c "Japan" 5 where_ None (db memdb.populated) = Err cause
       ∧ errNamespaceNotFound = fmt.Errorf "couldn't query collection: " cause).
Proof.
  exact (SimilaritySearch_errors (engine := memdb.engine)
           (memdb.store "towns") "Japan" 5 [] memdb.populated
           errNamespaceNotFound _ eq_refl).
Defined.

(** The entries of a two-entry map, ranged over backwards. *)
Lemma metadata_loops_any_order_witness :
  stringValues (reverse (gorange fixtures.twoEntries)) ∅
  = stringValues (gorange fixtures.twoEntries) ∅
  ∧ foldl (λ metadata kv, <[kv.1 := any_string kv.2]> metadata)
      (∅ : gmap string any) (reverse (gorange fixtures.twoStrings))
    = foldl (λ metadata kv, <[kv.1 := any_string kv.2]> metadata) ∅
        (gorange fixtures.twoStrings).
Proof.
  apply (metadata_loops_any_order fixtures.twoEntries fixtures.twoStrings).
  - apply reverse_Permutation.
  - apply reverse_Permutation.
Defined.

(** A threshold and a filter make no difference to what is added. *)
Lemma AddDocuments_uses_namespace_only_witness :
  chromem.AddDocuments (engine := memdb.engine) memdb.uuidNewString
    (memdb.store "cities") [memdb.tokyo] [] memdb.world0
  = chromem.AddDocuments (engine := memdb.engine) memdb.uuidNewString
      (memdb.store "cities") [memdb.tokyo]
      [vectorstores.WithScoreThreshold f32.one;
       vectorstores.WithFilters (Some memdb.areaFilter)] memdb.world0.
Proof.
  exact (AddDocuments_uses_namespace_only (engine := memdb.engine) memdb.uuidNewString
           (memdb.store "cities") [memdb.tokyo] []
           [vectorstores.WithScoreThreshold f32.one;
            vectorstores.WithFilters (Some memdb.areaFilter)] memdb.world0
           eq_refl eq_refl eq_refl).
Defined.

(** Threshold 0, then threshold 1: Tokyo and Paris, then Tokyo alone. *)
Lemma SimilaritySearch_threshold_monotone_witness :
  (SimilaritySearch (engine := memdb.engine) (memdb.store "cities") "Japan" 5
     ([] ++ [vectorstores.WithScoreThreshold f32.one]) memdb.populated).1
  = Returns (Ok [resultToDocument
                   (memdb.toResult
                      (chromem.submission memdb.uuidNewString [[f32.one]] 0 0 memdb.tokyo))])
  ∧ [resultToDocument
       (memdb.toResult
          (chromem.submission memdb.uuidNewString [[f32.one]] 0 0 memdb.tokyo))]
    `sublist_of`
    map resultToDocument
      (map memdb.toResult
         (chromem.submissions memdb.uuidNewString [[f32.one]; [f32.half]] 0 0
            [memdb.tokyo; memdb.paris])).
Proof.
  split; [reflexivity|].
  exact (SimilaritySearch_threshold_monotone (engine := memdb.engine)
           (memdb.store "cities") "Japan" 5 [] f32.one memdb.populated
           _ _ _ _ eq_refl eq_refl eq_refl).
Defined.

(** A search without options in the populated world returns both cities:
    no similarity is below 0. *)
Lemma SimilaritySearch_default_threshold_witness :
  ∃ where_ c results,
    chromemgo.GetCollection (Engine := memdb.engine)
      (vectorstores.NameSpace (resolved (memdb.store "cities") []))
      (ef (memdb.store "cities")) (db memdb.populated) = Some c
    ∧ chromemgo.Query c "Japan" 5 where_ None (db memdb.populated) = Ok results
    ∧ map resultToDocument
        (map memdb.toResult
           (chromem.submissions memdb.uuidNewString [[f32.one]; [f32.half]] 0 0
              [memdb.tokyo; memdb.paris]))
      = map resultToDocument
          (List.filter (λ r, f32.ge (chromemgo.Result.Similarity r) f32.zero) results)
    ∧ Forall (λ doc, f32.lt (schema.Document.Score doc) f32.zero = false)
        (map resultToDocument
           (map memdb.toResult
              (chromem.submissions memdb.uuidNewString [[f32.one]; [f32.half]] 0 0
                 [memdb.tokyo; memdb.paris])))
    ∧ (length (map resultToDocument
                 (map memdb.toResult
                    (chromem.submissions memdb.uuidNewString [[f32.one]; [f32.half]] 0 0
                       [memdb.tokyo; memdb.paris])))
       = length results
       ↔ Forall (λ r, f32.ge (chromemgo.Result.Similarity r) f32.zero = true) results).
Proof.
  exact (SimilaritySearch_default_threshold (engine := memdb.engine)
           (memdb.store "cities") "Japan" 5 [] memdb.populated
           _ _ (Forall_nil_2 _) eq_refl).
Defined.

(** ** The example program *)

Lemma stringValued_not_hasNonString (m : gomap any) :
  stringValued m → hasNonString m → False.
Proof. intros Hm (k & v & Hk & Hv). by destruct (Hm k v Hk) as [str ->]. Qed.

(** Every city of the example has string-valued metadata. *)
Lemma example_docs_stringValued :
  Forall (λ doc, stringValued (schema.Document.Metadata doc)) example.docs.
Proof.
  assert (∀ name population area,
            stringValued (schema.Document.Metadata (example.city name population area)))
    as Hcity.
  { intros name population area k v. unfold example.city, example.meta. simpl.
    intros [[_ <-]|[_ [[_ <-]|[_ Hempty]]%lookup_insert_Some]]%lookup_insert_Some;
      [by eexists|by eexists|by rewrite lookup_empty in Hempty]. }
  unfold example.docs. repeat constructor; apply Hcity.
Qed.

Section Main.
Context `{engine : chromemgo.Engine}.
Variable uuidNewString : nat → string.
Variable LLM : Type.
Variable openai_New : result LLM.
Variable embeddings_NewEmbedder : LLM → result embeddings.Embedder.
Variable similarityText : float32 → string.
Variable drawn : nat.

Local Abbreviation main :=
  (example.main uuidNewString LLM openai_New embeddings_NewEmbedder similarityText drawn).
Local Abbreviation runCases := (example.runCases similarityText).

Lemma whereOf_whereMap opts w where_ :
  whereOf (vectorstores.Filters opts) w = (Returns where_, w) →
  where_ = calls.whereMap (vectorstores.Filters opts).
Proof.
  destruct (vectorstores.Filters opts) as [[| | | |m|]|]; simpl; try done;
    by intros [= <-].
Qed.

(** A search that returns a list made exactly its two calls. *)
Lemma SimilaritySearch_Ok_world s query numDocuments options w res w' :
  SimilaritySearch s query numDocuments options w = (Returns (Ok res), w') →
  w' = {| db := db w; uuids := uuids w;
          trace := trace w ++ calls.searchCalls s query numDocuments options |}.
Proof.
  intros Hrun.
  destruct (SimilaritySearch_Ok_inv _ _ _ _ _ _ _ Hrun)
    as (where_ & c & results & Hvalid & Hwhere & Hcoll & Hquery).
  rewrite (SimilaritySearch_query _ _ _ _ _ _ _ _ Hvalid Hwhere Hcoll Hquery) in Hrun.
  injection Hrun as _ <-. apply whereOf_whereMap in Hwhere as ->.
  unfold log, calls.searchCalls. simpl. by rewrite <- app_assoc.
Qed.

(** The four ways a search can go. *)
Lemma SimilaritySearch_cases s query numDocuments options w :
  (∃ cause,
     validateOptions (resolved s options) = Some cause
     ∧ SimilaritySearch s query numDocuments options w
       = (Returns (Err (errInvalidOptions cause)), w))
  ∨ (validateOptions (resolved s options) = None
     ∧ SimilaritySearch s query numDocuments options w
       = (Returns (Err errNamespaceNotFound),
          log (EvGetCollection (vectorstores.NameSpace (resolved s options))) w))
  ∨ (∃ cause,
       validateOptions (resolved s options) = None
       ∧ SimilaritySearch s query numDocuments options w
         = (Returns (Err (fmt.Errorf "couldn't query collection: " cause)),
            {| db := db w; uuids := uuids w;
               trace := trace w ++ calls.searchCalls s query numDocuments options |}))
  ∨ (∃ found,
       validateOptions (resolved s options) = None
       ∧ SimilaritySearch s query numDocuments options w
         = (Returns (Ok found),
            {| db := db w; uuids := uuids w;
               trace := trace w ++ calls.searchCalls s query numDocuments options |})).
Proof.
  remember (SimilaritySearch s query numDocuments options w) as run eqn:Hrun.
  unfold SimilaritySearch in Hrun. fold (resolved s options) in Hrun.
  destruct (validateOptions (resolved s options)) as [cause|] eqn:Hvalid.
  { left. by exists cause. }
  destruct (whereOf_validated _ w Hvalid) as (where_ & Hwhere & _).
  pose proof (whereOf_whereMap _ _ _ Hwhere) as ->.
  unfold bind at 1 in Hrun. rewrite Hwhere in Hrun.
  unfold bind at 1 in Hrun. unfold db_GetCollection in Hrun.
  destruct (chromemgo.GetCollection _ _ _) as [c|].
  2:{ right. left. by split. }
  unfold bind, c_Query, log in Hrun. simpl in Hrun. rewrite <- !app_assoc in Hrun.
  simpl in Hrun. unfold calls.searchCalls.
  destruct (chromemgo.Query _ _ _ _ _ _) as [results|cause].
  - do 3 right. by eexists.
  - do 2 right. left. by exists cause.
Qed.


(** The kinds of error [AddDocuments] returns. *)
Lemma AddDocuments_errors_inv s docs options w err w' :
  chromem.AddDocuments uuidNewString s docs options w = (Returns (Err err), w') →
  (∃ cause, validateOptions (resolved s options) = Some cause
            ∧ err = errInvalidOptions cause)
  ∨ (∃ cause, err = fmt.Errorf "couldn't get or create collection: " cause)
  ∨ (∃ cause, err = fmt.Errorf "couldn't embed documents: " cause)
  ∨ (∃ pre doc post,
       err = errMetadataType
       ∧ docs = (pre ++ doc :: post)%list
       ∧ hasNonString (schema.Document.Metadata doc))
  ∨ (∃ cause, err = fmt.Errorf "couldn't add document: " cause).
Proof.
  unfold chromem.AddDocuments. fold (resolved s options).
  destruct (validateOptions (resolved s options)) as [cause|] eqn:Hvalid.
  { intros [= <- <-]. left. by exists cause. }
  unfold bind at 1. unfold db_GetOrCreateCollection.
  destruct (chromemgo.GetOrCreateCollection _ _ _ _) as [[c|cause] d1] eqn:Hcoll.
  2:{ intros [= <- <-]. right. left. by exists cause. }
  unfold bind at 1. unfold embedder_EmbedDocuments.
  destruct (embedder s) as [e|] eqn:He; [|done].
  destruct (embeddings.EmbedDocuments e _) as [embs|cause] eqn:Hembed.
  2:{ intros [= <- <-]. right. right. left. by exists cause. }
  intros (evs & pre & doc & post & _ & -> & _ & _ & Hkind)%addEach_Err_inv.
  do 3 right.
  destruct Hkind as [(-> & Hbad & _)|(cause & -> & _)].
  - left. by exists pre, doc, post.
  - right. by exists cause.
Qed.

(** The loop over the cases, when it runs to its end. *)
Lemma runCases_Done store cases : ∀ i out w,
  example.exit (runCases store i cases out w) = example.Done →
  length (example.stdout (runCases store i cases out w))
  = (length out + 2 * length cases)%nat
  ∧ example.world (runCases store i cases out w)
    = Some {| db := db w; uuids := uuids w;
              trace := trace w
                ++ flat_map (λ ec, calls.searchCalls store (example.query ec)
                                     (example.numDocuments ec) (example.options ec))
                     cases |}.
Proof.
  induction cases as [|ec rest IH]; intros i out w; simpl.
  - intros _. split; [lia|]. rewrite app_nil_r. by destruct w.
  - destruct (SimilaritySearch store _ _ _ w) as [[[found|err]|reason] w'] eqn:Hrun;
      [|done|done].
    intros Hdone. destruct (IH _ _ _ Hdone) as [Hout Hworld].
    rewrite Hout, Hworld. apply SimilaritySearch_Ok_world in Hrun as ->. simpl.
    split; [rewrite length_app; simpl; lia|]. by rewrite <- app_assoc.
Qed.

(** The loop over the cases never panics, and when it ends the program
    the message carries an error of one of the three kinds a search can
    return, for one of the cases. *)
Lemma runCases_not_Done store cases : ∀ i out w,
  (∀ reason, example.exit (runCases store i cases out w) ≠ example.Panicked reason)
  ∧ ∀ message,
      example.exit (runCases store i cases out w) = example.Fatal message →
      ∃ ec err,
        ec ∈ cases
        ∧ message = "Couldn't find similar documents: " +:+ errors.Error err +:+ example.nl
        ∧ ((∃ cause, validateOptions (resolved store (example.options ec)) = Some cause
                     ∧ err = errInvalidOptions cause)
           ∨ err = errNamespaceNotFound
           ∨ ∃ cause, err = fmt.Errorf "couldn't query collection: " cause).
Proof.
  induction cases as [|ec rest IH]; intros i out w; simpl; [done|].
  destruct (SimilaritySearch_cases store (example.query ec)
              (example.numDocuments ec) (example.options ec) w)
    as [(cause & Hcause & ->)|[(_ & ->)|[(cause & _ & ->)|(found & _ & ->)]]]; simpl.
  - split; [done|]. intros message [= <-]. exists ec, (errInvalidOptions cause).
    split_and!; [by apply elem_of_cons; left|reflexivity|]. left. by exists cause.
  - split; [done|]. intros message [= <-]. exists ec, errNamespaceNotFound.
    split_and!; [by apply elem_of_cons; left|reflexivity|]. right. by left.
  - split; [done|]. intros message [= <-].
    exists ec, (fmt.Errorf "couldn't query collection: " cause).
    split_and!; [by apply elem_of_cons; left|reflexivity|].
    right. right. by exists cause.
  - match goal with |- context [example.runCases _ _ _ _ ?out' ?w'] =>
      destruct (IH (S i) out' w') as [Hpanic Hfatal]
    end.
    split; [done|]. intros message Hmsg.
    destruct (Hfatal message Hmsg) as (ec' & err & Hin & -> & Hkind).
    exists ec', err. split_and!; [by apply elem_of_cons; right|done|done].
Qed.

Lemma main_after_New llm e :
  openai_New = Ok llm →
  embeddings_NewEmbedder llm = Ok e →
  main =
  match chromem.AddDocuments uuidNewString (example.store e) example.docs []
          {| db := chromemgo.NewDB; uuids := drawn; trace := [] |} with
  | (Panics reason, w) =>
      {| example.exit := example.Panicked reason;
         example.stdout := []; example.world := Some w |}
  | (Returns (Err err), w) =>
      {| example.exit :=
           example.Fatal ("Couldn't add documents: " +:+ errors.Error err +:+ example.nl);
         example.stdout := []; example.world := Some w |}
  | (Returns (Ok _), w) => runCases (example.store e) 0 example.exampleCases [] w
  end.
Proof. intros Hllm He. unfold example.main. by rewrite Hllm, He. Qed.

(** The program, when it runs to its end: the client and the embedder
    were created; the thirteen cities were embedded in one call and added
    to the collection "langchaingo" of a fresh in-memory database under
    thirteen fresh identifiers; then each case looked the collection up
    and queried it once, with its own text and count (5, 1 and 13) and,
    for the third case only, the filter on the area; six entries were
    printed, two per case. *)
Theorem main_Done :
  example.exit main = example.Done →
  ∃ llm e c d1 embs,
    openai_New = Ok llm
    ∧ embeddings_NewEmbedder llm = Ok e
    ∧ chromemgo.GetOrCreateCollection "langchaingo" None (ef (example.store e))
        chromemgo.NewDB = (Ok c, d1)
    ∧ embeddings.EmbedDocuments e (map schema.Document.PageContent example.docs) = Ok embs
    ∧ (13 ≤ length embs)%nat
    ∧ accepts c (chromem.submissions uuidNewString embs 0 drawn example.docs) d1
    ∧ length (example.stdout main) = 6%nat
    ∧ example.world main =
      Some {| db := dbAfter c
                      (chromem.submissions uuidNewString embs 0 drawn example.docs) d1;
              uuids := drawn + 13;
              trace :=
                [EvGetOrCreateCollection "langchaingo";
                 EvEmbedDocuments (map schema.Document.PageContent example.docs)]
                ++ addEvents "langchaingo"
                     (chromem.submissions uuidNewString embs 0 drawn example.docs)
                ++ [EvGetCollection "langchaingo";
                    EvQuery "langchaingo"
                      "Which of these cities are located in Japan?" 5 None;
                    EvGetCollection "langchaingo";
                    EvQuery "langchaingo"
                      "Which of these cities are located in South America?" 1 None;
                    EvGetCollection "langchaingo";
                    EvQuery "langchaingo"
                      "Which city is located in South America?" 13 example.areaFilter] |}.
Proof.
  destruct (ex_intro (λ r, openai_New = r) _ eq_refl) as [[llm|err] Hllm].
  2:{ unfold example.main. by rewrite Hllm. }
  destruct (ex_intro (λ r, embeddings_NewEmbedder llm = r) _ eq_refl) as [[e|err] He].
  2:{ unfold example.main. by rewrite Hllm, He. }
  rewrite (main_after_New llm e Hllm He).
  destruct (chromem.AddDocuments uuidNewString (example.store e) example.docs [] _)
    as [[[ids|err]|reason] w] eqn:Hadd; [|done|done].
  apply AddDocuments_Ok_inv in Hadd
    as (e' & c & d1 & embs & _ & [= <-] & Hcoll & Hembed & _ & Hlen & Hacc & _ & ->).
  intros Hdone. destruct (runCases_Done _ _ _ _ _ Hdone) as [Hout Hworld].
  exists llm, e, c, d1, embs. by split_and!.
Qed.

(** The program can only be stopped by its environment, never by what it
    passes to the adapter: when [log.Fatalf] ends it, the client or the
    embedder could not be created, or the engine or the embedder failed
    while the documents were added, or a search found no collection or
    the engine failed on the query.  Its options always validate and its
    metadata is always accepted. *)
Theorem main_Fatal message :
  example.exit main = example.Fatal message →
  (∃ err, openai_New = Err err
          ∧ message = "Couldn't create OpenAI client: " +:+ errors.Error err +:+ example.nl)
  ∨ (∃ llm err, openai_New = Ok llm ∧ embeddings_NewEmbedder llm = Err err
                ∧ message = "Couldn't create embedder: " +:+ errors.Error err +:+ example.nl)
  ∨ (∃ prefix cause,
       message = "Couldn't add documents: "
                 +:+ errors.Error (fmt.Errorf prefix cause) +:+ example.nl
       ∧ (prefix = "couldn't get or create collection: "
          ∨ prefix = "couldn't embed documents: "
          ∨ prefix = "couldn't add document: "))
  ∨ message = "Couldn't find similar documents: "
              +:+ errors.Error errNamespaceNotFound +:+ example.nl
  ∨ (∃ cause,
       message = "Couldn't find similar documents: "
                 +:+ errors.Error (fmt.Errorf "couldn't query collection: " cause)
                 +:+ example.nl).
Proof.
  destruct (ex_intro (λ r, openai_New = r) _ eq_refl) as [[llm|err] Hllm].
  2:{ unfold example.main. rewrite Hllm. intros [= <-]. left. by exists err. }
  destruct (ex_intro (λ r, embeddings_NewEmbedder llm = r) _ eq_refl) as [[e|err] He].
  2:{ unfold example.main. rewrite Hllm, He. intros [= <-]. right. left.
      by exists llm, err. }
  rewrite (main_after_New llm e Hllm He).
  destruct (chromem.AddDocuments uuidNewString (example.store e) example.docs [] _)
    as [[[ids|err]|reason] w] eqn:Hadd; [| |done].
  - intros Hmsg.
    destruct (runCases_not_Done (example.store e) example.exampleCases 0 [] w)
      as [_ Hfatal].
    destruct (Hfatal message Hmsg) as (ec & err & Hin & -> & Hkind).
    destruct Hkind as [(cause & Hcause & _)|[->|(cause & ->)]].
    + exfalso. unfold example.exampleCases in Hin.
      repeat (apply elem_of_cons in Hin as [->|Hin]; [done|]).
      by apply elem_of_nil in Hin.
    + do 3 right. by left.
    + do 4 right. by exists cause.
  - intros [= <-]. do 2 right. left.
    apply AddDocuments_errors_inv in Hadd
      as [(cause & Hcause & _)|[(cause & ->)|[(cause & ->)|[Hmeta|(cause & ->)]]]].
    + done.
    + eexists _, cause. split; [done|]. by left.
    + eexists _, cause. split; [done|]. right. by left.
    + exfalso. destruct Hmeta as (pre & doc & post & _ & Hsplit & Hbad).
      pose proof example_docs_stringValued as Hdocs. rewrite Hsplit in Hdocs.
      apply Forall_app in Hdocs as [_ [Hdoc _]%Forall_cons].
      by eapply stringValued_not_hasNonString.
    + eexists _, cause. split; [done|]. right. by right.
Qed.


End Main.
(** The example runs to its end on the in-memory engine and prints six
    entries. *)
Lemma main_Done_witness :
  example.exit runs.complete = example.Done
  ∧ length (example.stdout runs.complete) = 6%nat.
Proof.
  assert (example.exit runs.complete = example.Done) as Hdone by reflexivity.
  split; [exact Hdone|].
  destruct (main_Done (engine := memdb.engine) memdb.uuidNewString unit (Ok tt)
              (λ _, Ok memdb.embedder) (λ _, "") 0 Hdone)
    as (llm & e & c & d1 & embs & _ & _ & _ & _ & _ & _ & Hout & _).
  exact Hout.
Defined.

(** Without client the example stops at once. *)
Lemma main_Fatal_witness :
  (∃ err, Err (errors.New "missing API key") = Err (A := unit) err
          ∧ "Couldn't create OpenAI client: missing API key" +:+ example.nl
            = "Couldn't create OpenAI client: " +:+ errors.Error err +:+ example.nl)
  ∨ (∃ (llm : unit) err,
       Err (errors.New "missing API key") = Ok llm
       ∧ Ok memdb.embedder = Err err
       ∧ "Couldn't create OpenAI client: missing API key" +:+ example.nl
         = "Couldn't create embedder: " +:+ errors.Error err +:+ example.nl)
  ∨ (∃ prefix cause,
       "Couldn't create OpenAI client: missing API key" +:+ example.nl
       = "Couldn't add documents: "
         +:+ errors.Error (fmt.Errorf prefix cause) +:+ example.nl
       ∧ (prefix = "couldn't get or create collection: "
          ∨ prefix = "couldn't embed documents: "
          ∨ prefix = "couldn't add document: "))
  ∨ "Couldn't create OpenAI client: missing API key" +:+ example.nl
    = "Couldn't find similar documents: "
      +:+ errors.Error errNamespaceNotFound +:+ example.nl
  ∨ (∃ cause,
       "Couldn't create OpenAI client: missing API key" +:+ example.nl
       = "Couldn't find similar documents: "
         +:+ errors.Error (fmt.Errorf "couldn't query collection: " cause)
         +:+ example.nl).
Proof.
  exact (main_Fatal (engine := memdb.engine) memdb.uuidNewString unit
           (Err (errors.New "missing API key")) (λ _, Ok memdb.embedder) (λ _, "") 0
           ("Couldn't create OpenAI client: missing API key" +:+ example.nl) eq_refl).
Defined.


End ChromemExtra.
